(** * ap_planning: the screw planner ([src/screw_planner.cpp])

    A shallow embedding of [ap_planning::ScrewPlanner]: state-space
    construction, start/goal candidate generation by repeated inverse
    kinematics, the call into the sampling-based planner and the extraction
    of the joint trajectory from the solved path.

    - A C++ [double] is a binary64 primitive float; [size_t] is an integer
      in [0, 2^64) whose arithmetic wraps around.
    - The members of the planner object are the fields of [ScrewPlanner];
      a method that changes the object returns the updated one.  The two
      shared pointers [state_space_] and [ss_], which [plan] assigns anew
      before it uses them, are passed from method to method instead.
    - The robot model, the transform utilities and the OMPL planner are
      collaborators of the planner: their operations are the fields of
      [Collaborators], and every theorem holds for all of them. *)

From Stdlib Require Import List ZArith Bool String Lia Floats.
Import ListNotations.

Set Implicit Arguments.
(* decimal literals such as 0.01 denote the nearest double, as in C++ *)
Set Warnings "-inexact-float".
Local Open Scope Z_scope.

(** ** Numbers *)

Definition double := float.

(** [fabs] and [M_PI] of <cmath>; [M_PI] is the double nearest to pi. *)
Definition fabs (x : double) : double := PrimFloat.abs x.
Definition M_PI : double := 0x1.921fb54442d18p+1%float.

Module SizeT.
(** [size_t] on the 64-bit targets the planner is built for. *)
Definition modulus : Z := 2 ^ 64.
Definition wrap (z : Z) : Z := z mod modulus.
Definition add (a b : Z) : Z := wrap (a + b).
Definition mul (a b : Z) : Z := wrap (a * b).
Definition in_range (z : Z) : Prop := 0 <= z < modulus.
(** [v.size()] of a vector. *)
Definition size {A} (v : list A) : Z := Z.of_nat (List.length v).
End SizeT.

(** [v[i]] on the raw value array of a real-vector state.  Reading past the
    allocated dimension is undefined behaviour in C++; the model reads 0
    there. *)
Definition at_index (v : list double) (i : nat) : double := nth i v 0%float.

(** ** Messages *)

Module geometry_msgs.
Record Point := { x : double; y : double; z : double }.
Record Quaternion := { qx : double; qy : double; qz : double; qw : double }.
Record Pose := { position : Point; orientation : Quaternion }.
Record PoseStamped := { frame_id : string; pose : Pose }.
Record Transform := { translation : Point; rotation : Quaternion }.
Record TransformStamped := {
  header_frame_id : string;
  child_frame_id : string;
  transform : Transform
}.
End geometry_msgs.
Import geometry_msgs(Pose, PoseStamped, Transform, TransformStamped).

Record JointTrajectoryPoint := { positions : list double }.
Record JointTrajectory :=
  { joint_names : list string; points : list JointTrajectoryPoint }.

Record APPlanningResponse := {
  joint_trajectory : JointTrajectory;
  percentage_complete : double;
  trajectory_is_valid : bool;
  path_length : double
}.

Inductive Result := SUCCESS | INITIALIZATION_FAIL | NO_IK_SOLUTION | PLANNING_FAIL.

(** ** The robot model *)

Inductive JointType := UNKNOWN | REVOLUTE | PRISMATIC | PLANAR | FLOATING | FIXED.

Record VariableBounds := {
  min_position_ : double;
  max_position_ : double;
  position_bounded_ : bool
}.

Record JointModel := {
  getType : JointType;
  getName : string;
  getVariableBounds : string -> VariableBounds
}.

Record JointModelGroup := {
  group_name : string;
  getActiveJointModels : list JointModel;
  getVariableCount : nat;
  getVariableNames : list string
}.

(** ** OMPL state spaces, states and paths *)

(** A real-vector space is the list of the (low, high) bounds of its
    dimensions, in the order they were added. *)
Definition RealVectorStateSpace := list (double * double).

Definition addDimension (lo hi : double) (s : RealVectorStateSpace)
  : RealVectorStateSpace := s ++ [(lo, hi)].

(** The compound space [screw_space + joint_space], with the parameters
    registered on it and its lock. *)
Record StateSpace := {
  screw_space : RealVectorStateSpace;
  joint_space : RealVectorStateSpace;
  params : list (string * string);
  sampler_allocated : bool;
  locked : bool
}.

(** A compound state: component 0 is the screw state, component 1 the
    robot state. *)
Record CompoundState := {
  screw_state : list double;
  robot_state : list double
}.

Definition PathGeometric := list CompoundState.

Record SimpleSetup := {
  ss_space : StateSpace;
  ss_start_states : list CompoundState;
  ss_goal : list CompoundState;
  ss_solution : PathGeometric
}.

(** ** Collaborators

    What the planner consumes from the robot model (MoveIt), from the
    transform utilities (tf2, Eigen, affordance_primitives) and from the
    sampling-based planner (OMPL).  [RobotState] is the mutable kinematic
    state together with whatever its random generator and its IK solver
    keep; an operation that changes it returns the new one. *)
Class Collaborators := {
  RobotState : Type;
  Isometry3d : Type;
  ScrewStamped : Type;
  ScrewAxis : Type;
  (* moveit::core::RobotState *)
  setToDefaultValues : RobotState;
  setJointGroupPositions : JointModelGroup -> list double -> RobotState -> RobotState;
  copyJointGroupPositions : JointModelGroup -> RobotState -> list double;
  setToRandomPositions : RobotState -> RobotState;
  setFromIK : JointModelGroup -> Pose -> RobotState -> bool * RobotState;
  update : bool -> RobotState -> RobotState;
  getFrameTransform : string -> RobotState -> Isometry3d;
  (* tf2, Eigen and affordance_primitives *)
  screw_frame_id : ScrewStamped -> string;
  transformScrew : ScrewStamped -> TransformStamped -> ScrewStamped;
  setScrewAxis : ScrewStamped -> ScrewAxis;
  getTF : ScrewAxis -> double -> Isometry3d;
  compose : Isometry3d -> Isometry3d -> Isometry3d;
  transformToEigen : TransformStamped -> Isometry3d;
  eigenToTransform : Isometry3d -> TransformStamped;
  toMsg : Isometry3d -> Pose;
  screwMsgToStr : ScrewStamped -> string;
  poseToStr : PoseStamped -> string;
  (* ompl::geometric::SimpleSetup and PathGeometric *)
  solve : double -> SimpleSetup -> bool * SimpleSetup;
  simplifySolution : double -> SimpleSetup -> SimpleSetup;
  isValid : SimpleSetup -> CompoundState -> bool;
  interpolate : PathGeometric -> PathGeometric;
  solution_length : PathGeometric -> double;
  (* joint-space distance and threshold of the duplicate check *)
  duplicate_distance : list double -> list double -> double;
  duplicate_threshold : double
}.

Section Planner.
Context {E : Collaborators}.

Record APPlanningRequest := {
  screw_msg : ScrewStamped;
  theta : double;
  ee_frame_name : string;
  start_joint_state : list double;
  start_pose : PoseStamped
}.

Record ScrewPlanner := {
  joint_model_group_ : JointModelGroup;
  kinematic_state_ : RobotState;
  passed_start_config_ : bool;
  screw_axis_ : ScrewAxis;
  start_pose_ : Isometry3d;
  goal_pose_ : Isometry3d
}.

Definition set_kinematic_state (p : ScrewPlanner) (ks : RobotState) :=
  {| joint_model_group_ := joint_model_group_ p; kinematic_state_ := ks;
     passed_start_config_ := passed_start_config_ p;
     screw_axis_ := screw_axis_ p; start_pose_ := start_pose_ p;
     goal_pose_ := goal_pose_ p |}.

Definition set_passed_start_config (p : ScrewPlanner) (b : bool) :=
  {| joint_model_group_ := joint_model_group_ p;
     kinematic_state_ := kinematic_state_ p; passed_start_config_ := b;
     screw_axis_ := screw_axis_ p; start_pose_ := start_pose_ p;
     goal_pose_ := goal_pose_ p |}.

Definition set_screw_axis (p : ScrewPlanner) (a : ScrewAxis) :=
  {| joint_model_group_ := joint_model_group_ p;
     kinematic_state_ := kinematic_state_ p;
     passed_start_config_ := passed_start_config_ p;
     screw_axis_ := a; start_pose_ := start_pose_ p;
     goal_pose_ := goal_pose_ p |}.

Definition set_start_pose (p : ScrewPlanner) (t : Isometry3d) :=
  {| joint_model_group_ := joint_model_group_ p;
     kinematic_state_ := kinematic_state_ p;
     passed_start_config_ := passed_start_config_ p;
     screw_axis_ := screw_axis_ p; start_pose_ := t;
     goal_pose_ := goal_pose_ p |}.

Definition set_goal_pose (p : ScrewPlanner) (t : Isometry3d) :=
  {| joint_model_group_ := joint_model_group_ p;
     kinematic_state_ := kinematic_state_ p;
     passed_start_config_ := passed_start_config_ p;
     screw_axis_ := screw_axis_ p; start_pose_ := start_pose_ p;
     goal_pose_ := t |}.

(** ** setupStateSpace *)

(** The joint types of the final [else] of the loop below. *)
Definition other_joint_type (jt : JointType) : bool :=
  match jt with
  | PLANAR | REVOLUTE | PRISMATIC => false
  | _ => true
  end.

Definition unbounded_joint (joint : JointModel) : bool :=
  match getType joint with
  | REVOLUTE | PRISMATIC =>
      negb (position_bounded_ (getVariableBounds joint (getName joint)))
  | _ => false
  end.

(** The dimensions one joint adds to the joint space, as (low, high)
    bounds: what the loop below appends for it. *)
Definition joint_bounds (joint : JointModel) : list (double * double) :=
  match getType joint with
  | PLANAR =>
      [((-1e3)%float, 1e3%float); ((-1e3)%float, 1e3%float);
       ((- M_PI)%float, M_PI)]
  | REVOLUTE | PRISMATIC =>
      [(min_position_ (getVariableBounds joint (getName joint)),
        max_position_ (getVariableBounds joint (getName joint)))]
  | _ => []
  end.

(** The loop over the active joints: [joint_space] so far, the joints left.
    [None] is the [return false] of the loop. *)
Fixpoint addJointDimensions (joints : list JointModel)
    (joint_space : RealVectorStateSpace) : option RealVectorStateSpace :=
  match joints with
  | [] => Some joint_space
  | joint :: rest =>
      match getType joint with
      | PLANAR =>
          addJointDimensions rest
            (addDimension (- M_PI)%float M_PI
               (addDimension (-1e3)%float 1e3%float
                  (addDimension (-1e3)%float 1e3%float joint_space)))
      | REVOLUTE | PRISMATIC =>
          let bounds := getVariableBounds joint (getName joint) in
          if position_bounded_ bounds then
            addJointDimensions rest
              (addDimension (min_position_ bounds) (max_position_ bounds)
                 joint_space)
          else None
      | _ => addJointDimensions rest joint_space
      end
  end.

(** [None] when the method returns false ([state_space_] is then left
    null); otherwise the new [state_space_]. *)
Definition setupStateSpace (p : ScrewPlanner) (req : APPlanningRequest)
  : option StateSpace :=
  let screw_space := addDimension 0%float (theta req) [] in
  match addJointDimensions (getActiveJointModels (joint_model_group_ p)) [] with
  | None => None
  | Some joint_space =>
      Some {| screw_space := screw_space; joint_space := joint_space;
              params := []; sampler_allocated := false; locked := false |}
  end.

(** ** getStartTF, setSpaceParameters, setSimpleSetup *)

Definition getStartTF (req : APPlanningRequest) (p : ScrewPlanner)
  : TransformStamped * ScrewPlanner :=
  let jmg := joint_model_group_ p in
  let '(tf, p1) :=
    if Nat.eqb (List.length (start_joint_state req)) (getVariableCount jmg)
    then
      (* a starting joint configuration was given: extract the start pose *)
      let ks := update true
                  (setJointGroupPositions jmg (start_joint_state req)
                     (kinematic_state_ p)) in
      let pose_eig := getFrameTransform (ee_frame_name req) ks in
      (geometry_msgs.transform (eigenToTransform pose_eig),
       set_passed_start_config (set_kinematic_state p ks) true)
    else
      (* set the start pose directly *)
      let start := geometry_msgs.pose (start_pose req) in
      ({| geometry_msgs.translation :=
            {| geometry_msgs.x := geometry_msgs.x (geometry_msgs.position start);
               geometry_msgs.y := geometry_msgs.y (geometry_msgs.position start);
               geometry_msgs.z := geometry_msgs.z (geometry_msgs.position start) |};
          geometry_msgs.rotation := geometry_msgs.orientation start |},
       set_passed_start_config p false) in
  let tf_msg :=
    {| geometry_msgs.header_frame_id := screw_frame_id (screw_msg req);
       geometry_msgs.child_frame_id := ee_frame_name req;
       geometry_msgs.transform := tf |} in
  (tf_msg, set_start_pose p1 (transformToEigen tf_msg)).

(** [space->params().add(param)] after [param->setValue(value)]. *)
Definition add_param (name value : string) (space : StateSpace) : StateSpace :=
  {| screw_space := screw_space space; joint_space := joint_space space;
     params := params space ++ [(name, value)];
     sampler_allocated := sampler_allocated space; locked := locked space |}.

Definition setSpaceParameters (req : APPlanningRequest) (space : StateSpace)
    (p : ScrewPlanner) : bool * StateSpace * ScrewPlanner :=
  let '(tf_msg, p1) := getStartTF req p in
  let transformed_screw := transformScrew (screw_msg req) tf_msg in
  let p2 := set_screw_axis p1 (setScrewAxis transformed_screw) in
  let planning_to_start := transformToEigen tf_msg in
  let p3 := set_goal_pose p2
              (compose planning_to_start (getTF (screw_axis_ p2) (theta req))) in
  let space1 := add_param "screw_param" (screwMsgToStr transformed_screw) space in
  let pose_msg :=
    {| geometry_msgs.frame_id := geometry_msgs.frame_id (start_pose req);
       geometry_msgs.pose := toMsg (start_pose_ p3) |} in
  let space2 := add_param "pose_param" (poseToStr pose_msg) space1 in
  let space3 := add_param "ee_frame_name" (ee_frame_name req) space2 in
  let space4 := add_param "move_group" (group_name (joint_model_group_ p3)) space3 in
  (true, space4, p3).

(** [setStateSamplerAllocator] followed by [lock]. *)
Definition allocate_sampler_and_lock (space : StateSpace) : StateSpace :=
  {| screw_space := screw_space space; joint_space := joint_space space;
     params := params space; sampler_allocated := true; locked := true |}.

(** The validity checker, the valid-state sampler and the PRM planner that
    [setSimpleSetup] installs are what [isValid] and [solve] of the
    collaborators stand for. *)
Definition setSimpleSetup (space : StateSpace) : bool * SimpleSetup :=
  (true, {| ss_space := space; ss_start_states := []; ss_goal := [];
            ss_solution := [] |}).

Definition addStartState (st : CompoundState) (ss : SimpleSetup) : SimpleSetup :=
  {| ss_space := ss_space ss; ss_start_states := ss_start_states ss ++ [st];
     ss_goal := ss_goal ss; ss_solution := ss_solution ss |}.

Definition setGoal (goal_obj : list CompoundState) (ss : SimpleSetup) : SimpleSetup :=
  {| ss_space := ss_space ss; ss_start_states := ss_start_states ss;
     ss_goal := goal_obj; ss_solution := ss_solution ss |}.

(** Modelled from the spec: [vectorToState] is declared outside
    [screw_planner.cpp].  It makes the state of the compound space whose
    screw component and robot component hold the two given vectors (start
    configurations are registered at progress 0, goal configurations at
    progress theta). *)
Definition vectorToState (space : StateSpace) (screw_vals joint_vals : list double)
  : CompoundState :=
  {| screw_state := screw_vals; robot_state := joint_vals |}.

(** ** Candidate generation *)

Definition within_duplicate_threshold (a b : list double) : bool :=
  (duplicate_distance a b <? duplicate_threshold)%float.

(** Modelled from the spec: [checkDuplicateState] is declared outside
    [screw_planner.cpp].  A new configuration is checked for duplication,
    within a joint-space distance threshold, against the configurations
    already accepted; the result is true when it duplicates none of them. *)
Definition checkDuplicateState (state_list : list (list double))
    (new_state : list double) : bool :=
  forallb (fun st => negb (within_duplicate_threshold st new_state)) state_list.

(** A pool in which no configuration duplicates an earlier one. *)
Fixpoint pairwise_distinct (pool : list (list double)) : bool :=
  match pool with
  | [] => true
  | a :: rest =>
      forallb (fun b => negb (within_duplicate_threshold a b)) rest
      && pairwise_distinct rest
  end.

Definition increaseStateList (pose : Pose) (state_list : list (list double))
    (p : ScrewPlanner) : list (list double) * ScrewPlanner :=
  (* try to solve the IK *)
  let '(found, ks) := setFromIK (joint_model_group_ p) pose (kinematic_state_ p) in
  let p1 := set_kinematic_state p ks in
  if negb found then (state_list, p1)
  else
    (* copy the found solution, add it to the list if it is valid *)
    let joint_values := copyJointGroupPositions (joint_model_group_ p1) ks in
    if checkDuplicateState state_list joint_values
    then (state_list ++ [joint_values], p1)
    else (state_list, p1).

(** A configuration that inverse kinematics at [pose] produced: the joint
    values copied out of some kinematic state on which [setFromIK]
    succeeded. *)
Definition ik_solution (jmg : JointModelGroup) (pose : Pose)
    (joint_values : list double) : Prop :=
  exists ks,
    fst (setFromIK jmg pose ks) = true /\
    joint_values = copyJointGroupPositions jmg (snd (setFromIK jmg pose ks)).

Definition randomize (p : ScrewPlanner) : ScrewPlanner :=
  set_kinematic_state p (setToRandomPositions (kinematic_state_ p)).

(** The [while] loop of [findGoalStates], from the state ([i],
    [goal_configs], planner).  Every iteration increments [i], so
    [2 * num_goal - i] iterations of fuel are never used up. *)
Fixpoint findGoalStates_loop (fuel : nat) (goal_pose_msg : Pose) (num_goal : Z)
    (i : Z) (goal_configs : list (list double)) (p : ScrewPlanner)
  : Z * list (list double) * ScrewPlanner :=
  match fuel with
  | O => (i, goal_configs, p)
  | S fuel' =>
      if (SizeT.size goal_configs <? num_goal) && (i <? SizeT.mul 2 num_goal)
      then
        let '(goal_configs1, p1) :=
          increaseStateList goal_pose_msg goal_configs p in
        let p2 := randomize p1 in
        findGoalStates_loop fuel' goal_pose_msg num_goal (SizeT.add i 1)
          goal_configs1 p2
      else (i, goal_configs, p)
  end.

(** [clear] empties the two vectors.  [reserve] only allocates and is left
    out: the model covers the quotas up to the [max_size] of the vector,
    above which the C++ call throws std::length_error. *)
Definition findGoalStates (req : APPlanningRequest) (num_goal : Z)
    (start_configs goal_configs : list (list double)) (p : ScrewPlanner)
  : bool * list (list double) * list (list double) * ScrewPlanner :=
  let start_configs0 : list (list double) := [] in
  let goal_configs0 : list (list double) := [] in
  if negb (Nat.eqb (List.length (start_joint_state req))
             (getVariableCount (joint_model_group_ p)))
  then (false, start_configs0, goal_configs0, p)
  else
    let start_configs1 := start_configs0 ++ [start_joint_state req] in
    let p1 := set_kinematic_state p
                (setJointGroupPositions (joint_model_group_ p)
                   (start_joint_state req) (kinematic_state_ p)) in
    let goal_pose_msg := toMsg (goal_pose_ p1) in
    let '(_, goal_configs1, p2) :=
      findGoalStates_loop (Z.to_nat (SizeT.mul 2 num_goal)) goal_pose_msg
        num_goal 0 goal_configs0 p1 in
    (0 <? SizeT.size goal_configs1, start_configs1, goal_configs1, p2).

(** The [while] loop of [findStartGoalStates]. *)
Fixpoint findStartGoalStates_loop (fuel : nat) (start_pose_msg goal_pose_msg : Pose)
    (num_start num_goal : Z) (i : Z)
    (start_configs goal_configs : list (list double)) (p : ScrewPlanner)
  : Z * list (list double) * list (list double) * ScrewPlanner :=
  match fuel with
  | O => (i, start_configs, goal_configs, p)
  | S fuel' =>
      if ((SizeT.size start_configs <? num_start)
          || (SizeT.size goal_configs <? num_goal))
         && (i <? SizeT.mul 2 (SizeT.add num_goal num_start))
      then
        (* every time, set to random states to get variety in solutions *)
        let p1 := randomize p in
        let i1 := SizeT.add i 1 in
        let '(start_configs1, p2) :=
          if SizeT.size start_configs <? num_start
          then increaseStateList start_pose_msg start_configs p1
          else (start_configs, p1) in
        let '(goal_configs1, p3) :=
          if SizeT.size goal_configs <? num_goal
          then increaseStateList goal_pose_msg goal_configs p2
          else (goal_configs, p2) in
        findStartGoalStates_loop fuel' start_pose_msg goal_pose_msg
          num_start num_goal i1 start_configs1 goal_configs1 p3
      else (i, start_configs, goal_configs, p)
  end.

(** The guard returns before the vectors are cleared.  As in
    [findGoalStates], [reserve] is left out: the model covers the quotas up
    to the [max_size] of the vectors. *)
Definition findStartGoalStates (req : APPlanningRequest) (num_start num_goal : Z)
    (start_configs goal_configs : list (list double)) (p : ScrewPlanner)
  : bool * list (list double) * list (list double) * ScrewPlanner :=
  if (num_goal <? 1) || (num_start <? 1)
  then (false, start_configs, goal_configs, p)
  else
    let start_configs0 : list (list double) := [] in
    let goal_configs0 : list (list double) := [] in
    let goal_pose_msg := toMsg (goal_pose_ p) in
    let '(_, start_configs1, goal_configs1, p1) :=
      findStartGoalStates_loop
        (Z.to_nat (SizeT.mul 2 (SizeT.add num_goal num_start)))
        (geometry_msgs.pose (start_pose req)) goal_pose_msg
        num_start num_goal 0 start_configs0 goal_configs0 p in
    ((0 <? SizeT.size start_configs1) && (0 <? SizeT.size goal_configs1),
     start_configs1, goal_configs1, p1).

(** ** populateResponse *)

Definition set_joint_names (res : APPlanningResponse) (names : list string) :=
  {| joint_trajectory :=
       {| joint_names := names; points := points (joint_trajectory res) |};
     percentage_complete := percentage_complete res;
     trajectory_is_valid := trajectory_is_valid res;
     path_length := path_length res |}.

Definition push_back_point (res : APPlanningResponse) (pt : JointTrajectoryPoint) :=
  {| joint_trajectory :=
       {| joint_names := joint_names (joint_trajectory res);
          points := points (joint_trajectory res) ++ [pt] |};
     percentage_complete := percentage_complete res;
     trajectory_is_valid := trajectory_is_valid res;
     path_length := path_length res |}.

Definition set_percentage_complete (res : APPlanningResponse) (v : double) :=
  {| joint_trajectory := joint_trajectory res; percentage_complete := v;
     trajectory_is_valid := trajectory_is_valid res;
     path_length := path_length res |}.

Definition set_trajectory_is_valid (res : APPlanningResponse) (b : bool) :=
  {| joint_trajectory := joint_trajectory res;
     percentage_complete := percentage_complete res;
     trajectory_is_valid := b; path_length := path_length res |}.

Definition set_path_length (res : APPlanningResponse) (v : double) :=
  {| joint_trajectory := joint_trajectory res;
     percentage_complete := percentage_complete res;
     trajectory_is_valid := trajectory_is_valid res; path_length := v |}.

(** The waypoint of a state: [robot_state[i]] for [i] below [num_joints]. *)
Definition waypoint (num_joints : nat) (state : CompoundState) : JointTrajectoryPoint :=
  {| positions := map (at_index (robot_state state)) (seq 0 num_joints) |}.

(** How the [for] loop over the states is left: by its [return], or by
    running off the end of the path. *)
Inductive LoopExit := Returned (res : APPlanningResponse) | Completed (res : APPlanningResponse).

Fixpoint checkStates (ss : SimpleSetup) (req : APPlanningRequest) (num_joints : nat)
    (states : list CompoundState) (res : APPlanningResponse) : LoopExit :=
  match states with
  | [] => Completed res
  | state :: rest =>
      if negb (isValid ss state) then
        (* an invalid state: the trajectory is not continued *)
        let res1 := set_trajectory_is_valid res false in
        Returned (set_percentage_complete res1
                    (at_index (screw_state state) 0 / theta req)%float)
      else
        checkStates ss req num_joints rest
          (push_back_point res (waypoint num_joints state))
  end.

(** The states of a path up to its first invalid state. *)
Fixpoint valid_prefix (valid : CompoundState -> bool)
    (states : list CompoundState) : list CompoundState :=
  match states with
  | [] => []
  | state :: rest =>
      if valid state then state :: valid_prefix valid rest else []
  end.

(** [back()] of the states; the path is not empty where it is called (on
    an empty vector it is undefined behaviour, the model reads a state
    without values there). *)
Definition back (states : list CompoundState) : CompoundState :=
  last states {| screw_state := []; robot_state := [] |}.

(** Returns the response and the solution path, which is interpolated in
    place. *)
Definition populateResponse (ss : SimpleSetup) (solution : PathGeometric)
    (req : APPlanningRequest) (res : APPlanningResponse) (p : ScrewPlanner)
  : APPlanningResponse * PathGeometric :=
  if Nat.ltb (List.length solution) 2 then (res, solution)
  else
    let solution1 := interpolate solution in
    let res1 := set_joint_names res (getVariableNames (joint_model_group_ p)) in
    let num_joints := List.length (joint_names (joint_trajectory res1)) in
    match checkStates ss req num_joints solution1 res1 with
    | Returned res2 => (res2, solution1)
    | Completed res2 =>
        (* check the last point to make sure it is at the goal *)
        let screw := screw_state (back solution1) in
        let err := fabs (theta req - at_index screw 0)%float in
        let res3 :=
          if (0.01 <? err)%float
          then set_trajectory_is_valid res2 false
          else set_trajectory_is_valid res2 true in
        let res4 := set_percentage_complete res3
                      (at_index screw 0 / theta req)%float in
        (set_path_length res4 (solution_length solution1), solution1)
    end.

(** ** plan *)

(** The response set to the failing case. *)
Definition reset_response (res : APPlanningResponse) : APPlanningResponse :=
  {| joint_trajectory := {| joint_names := []; points := [] |};
     percentage_complete := 0%float;
     trajectory_is_valid := false;
     path_length := path_length res |}.

(** The set-up of [plan], from the fresh kinematic state to
    [setSimpleSetup]: [None] where [plan] returns INITIALIZATION_FAIL. *)
Definition initialize (req : APPlanningRequest) (p : ScrewPlanner)
  : option (StateSpace * SimpleSetup * ScrewPlanner) :=
  let p0 := set_kinematic_state p setToDefaultValues in
  match setupStateSpace p0 req with
  | None => None
  | Some state_space =>
      let '(ok, state_space1, p1) := setSpaceParameters req state_space p0 in
      if negb ok then None
      else
        let state_space2 := allocate_sampler_and_lock state_space1 in
        let '(ok2, ss) := setSimpleSetup state_space2 in
        if negb ok2 then None else Some (state_space2, ss, p1)
  end.

(** Create start and goal states. *)
Definition findCandidates (req : APPlanningRequest) (p : ScrewPlanner)
  : bool * list (list double) * list (list double) * ScrewPlanner :=
  if passed_start_config_ p then findGoalStates req 10 [] [] p
  else findStartGoalStates req 5 10 [] [] p.

(** Set the start states, create and populate the goal object. *)
Definition defineProblem (req : APPlanningRequest) (state_space : StateSpace)
    (ss : SimpleSetup) (start_configs goal_configs : list (list double))
  : SimpleSetup :=
  let ss1 :=
    fold_left
      (fun ss0 start_state =>
         addStartState (vectorToState state_space [0%float] start_state) ss0)
      start_configs ss in
  let goal_obj :=
    map (fun goal_state => vectorToState state_space [theta req] goal_state)
      goal_configs in
  setGoal goal_obj ss1.

Definition plan (req : APPlanningRequest) (res : APPlanningResponse)
    (p : ScrewPlanner) : Result * APPlanningResponse :=
  let res0 := reset_response res in
  match initialize req p with
  | None => (INITIALIZATION_FAIL, res0)
  | Some (state_space, ss, p1) =>
      let '(found, start_configs, goal_configs, p2) := findCandidates req p1 in
      if negb found then (NO_IK_SOLUTION, res0)
      else
        let ss1 := defineProblem req state_space ss start_configs goal_configs in
        let '(solved, ss2) := solve 5%float ss1 in
        if solved then
          let ss3 := simplifySolution 1%float ss2 in
          (SUCCESS, fst (populateResponse ss3 (ss_solution ss3) req res0 p2))
        else (PLANNING_FAIL, res0)
  end.

End Planner.

(** ** A small concrete set of collaborators

    Used to run the planner on explicit requests.  The kinematic state is
    the joint vector and the number of random draws made so far; the k-th
    random draw sets the single joint to k/4; inverse kinematics succeeds or
    not as [ik_succeeds] says and, when it does, keeps the seed as the
    solution; the planner reports [solved] and the path [path]; a state is
    valid when [valid] says so.  Two configurations are duplicates when
    their first joints differ by less than 1/8. *)
Module Demo.

Definition quarter (k : nat) : double :=
  (PrimFloat.of_uint63 (Uint63.of_Z (Z.of_nat k)) / 4)%float.

Definition identity_transform : TransformStamped :=
  {| geometry_msgs.header_frame_id := ""; geometry_msgs.child_frame_id := "";
     geometry_msgs.transform :=
       {| geometry_msgs.translation :=
            {| geometry_msgs.x := 0; geometry_msgs.y := 0; geometry_msgs.z := 0 |};
          geometry_msgs.rotation :=
            {| geometry_msgs.qx := 0; geometry_msgs.qy := 0;
               geometry_msgs.qz := 0; geometry_msgs.qw := 1 |} |} |}%float.

Definition pose_of (t : TransformStamped) : Pose :=
  {| geometry_msgs.position :=
       geometry_msgs.translation (geometry_msgs.transform t);
     geometry_msgs.orientation :=
       geometry_msgs.rotation (geometry_msgs.transform t) |}.

Definition collaborators (ik_succeeds : Pose -> bool) (solved : bool)
    (path : PathGeometric) (valid : CompoundState -> bool) : Collaborators :=
  {| RobotState := list double * nat;
     Isometry3d := TransformStamped;
     ScrewStamped := string;
     ScrewAxis := unit;
     setToDefaultValues := ([0%float], O);
     setJointGroupPositions := fun _ q ks => (q, snd ks);
     copyJointGroupPositions := fun _ ks => fst ks;
     setToRandomPositions := fun ks => ([quarter (S (snd ks))], S (snd ks));
     setFromIK := fun _ pose ks => (ik_succeeds pose, ks);
     update := fun _ ks => ks;
     getFrameTransform := fun _ _ => identity_transform;
     screw_frame_id := fun frame => frame;
     transformScrew := fun screw _ => screw;
     setScrewAxis := fun _ => tt;
     getTF := fun _ _ => identity_transform;
     compose := fun a _ => a;
     transformToEigen := fun t => t;
     eigenToTransform := fun t => t;
     toMsg := pose_of;
     screwMsgToStr := fun screw => screw;
     poseToStr := fun ps => geometry_msgs.frame_id ps;
     solve := fun _ ss =>
       (solved,
        {| ss_space := ss_space ss; ss_start_states := ss_start_states ss;
           ss_goal := ss_goal ss; ss_solution := path |});
     simplifySolution := fun _ ss => ss;
     isValid := fun _ st => valid st;
     interpolate := fun states => states;
     solution_length := fun states =>
       PrimFloat.of_uint63 (Uint63.of_Z (Z.of_nat (List.length states)));
     duplicate_distance := fun a b => fabs (at_index a 0 - at_index b 0)%float;
     duplicate_threshold := 0.125%float |}.

Definition origin : Pose := pose_of identity_transform.

Definition bounds_of (lo hi : double) (bounded : bool) (_ : string) : VariableBounds :=
  {| min_position_ := lo; max_position_ := hi; position_bounded_ := bounded |}.

Definition joint (type : JointType) (name : string) (bounded : bool) : JointModel :=
  {| getType := type; getName := name;
     getVariableBounds := bounds_of (-1)%float 1%float bounded |}.

(** A group of the given joints, one variable per joint. *)
Definition group (joints : list JointModel) : JointModelGroup :=
  {| group_name := "arm"; getActiveJointModels := joints;
     getVariableCount := List.length joints;
     getVariableNames := map getName joints |}.

(** A response left over from an earlier call. *)
Definition stale_response : APPlanningResponse :=
  {| joint_trajectory :=
       {| joint_names := ["old_joint"%string];
          points := [ {| positions := [0.5%float] |} ] |};
     percentage_complete := 0.5%float; trajectory_is_valid := true;
     path_length := 2%float |}.

Definition request ik_succeeds solved path valid (angle : double)
    (start : list double)
  : @APPlanningRequest (collaborators ik_succeeds solved path valid) :=
  @Build_APPlanningRequest (collaborators ik_succeeds solved path valid)
    "world"%string angle "tool"%string start
    {| geometry_msgs.frame_id := "world"; geometry_msgs.pose := origin |}.

(** A planner object as its constructor leaves it. *)
Definition planner ik_succeeds solved path valid (jmg : JointModelGroup)
  : @ScrewPlanner (collaborators ik_succeeds solved path valid) :=
  @Build_ScrewPlanner (collaborators ik_succeeds solved path valid)
    jmg ([], O) false tt identity_transform identity_transform.

Definition state (progress q : double) : CompoundState :=
  {| screw_state := [progress]; robot_state := [q] |}.

Definition empty_setup : SimpleSetup :=
  {| ss_space := {| screw_space := []; joint_space := []; params := [];
                    sampler_allocated := false; locked := false |};
     ss_start_states := []; ss_goal := []; ss_solution := [] |}.

Definition always (_ : CompoundState) : bool := true.
Definition joint_below_one (st : CompoundState) : bool :=
  (at_index (robot_state st) 0 <? 1)%float.
Definition reachable (_ : Pose) : bool := true.

(** One revolute joint with position bounds. *)
Definition arm : JointModelGroup := group [joint REVOLUTE "shoulder" true].

(** One floating joint: seven variables. *)
Definition floating_base : JointModelGroup :=
  {| group_name := "base";
     getActiveJointModels := [joint FLOATING "virtual_joint" false];
     getVariableCount := 7;
     getVariableNames :=
       ["virtual_joint/trans_x"; "virtual_joint/trans_y";
        "virtual_joint/trans_z"; "virtual_joint/rot_x";
        "virtual_joint/rot_y"; "virtual_joint/rot_z";
        "virtual_joint/rot_w"]%string |}.

(** The planner finds a path that reaches the requested angle. *)
Definition full_path : PathGeometric :=
  [state 0 0.25; state 0.5 0.5; state 1 0.75]%float.
Definition solving : Collaborators :=
  collaborators reachable true full_path always.
Definition solving_planner := planner reachable true full_path always arm.
Definition solving_request := request reachable true full_path always.

(** The third state of the path is invalid. *)
Definition blocked_path : PathGeometric :=
  [state 0 0.25; state 0.25 0.5; state 0.5 1.5; state 1 0.75]%float.
Definition blocked : Collaborators :=
  collaborators reachable true blocked_path joint_below_one.
Definition blocked_planner :=
  planner reachable true blocked_path joint_below_one arm.
Definition blocked_request := request reachable true blocked_path joint_below_one.

(** The planner reports no solution. *)
Definition unsolved : Collaborators := collaborators reachable false [] always.
Definition unsolved_planner := planner reachable false [] always arm.
Definition unsolved_floating_planner :=
  planner reachable false [] always floating_base.
Definition unsolved_request := request reachable false [] always.

(** The planner reports a solution of a single state. *)
Definition single_state : Collaborators :=
  collaborators reachable true [state 0 0.25]%float always.
Definition single_state_planner :=
  planner reachable true [state 0 0.25]%float always arm.
Definition single_state_request :=
  request reachable true [state 0 0.25]%float always.

(** Inverse kinematics fails on every pose. *)
Definition unreachable (_ : Pose) : bool := false.
Definition no_ik : Collaborators := collaborators unreachable true full_path always.
Definition no_ik_planner := planner unreachable true full_path always arm.
Definition no_ik_request := request unreachable true full_path always.

(** A group of a planar joint and a bounded revolute joint. *)
Definition mobile_arm : JointModelGroup :=
  {| group_name := "mobile_arm";
     getActiveJointModels :=
       [joint PLANAR "base" false; joint REVOLUTE "shoulder" true];
     getVariableCount := 4;
     getVariableNames := ["base/x"; "base/y"; "base/theta"; "shoulder"]%string |}.
Definition mobile_planner := planner reachable true full_path always mobile_arm.

(** A group with a revolute joint that has no position bounds. *)
Definition continuous_arm : JointModelGroup :=
  group [joint REVOLUTE "shoulder" true; joint REVOLUTE "wrist" false].
Definition continuous_planner :=
  planner reachable true full_path always continuous_arm.

(** A request for a screw motion of angle zero: the path stays at
    progress 0. *)
Definition zero_path : PathGeometric := [state 0 0.25; state 0 0.5]%float.
Definition zero_angle : Collaborators :=
  collaborators reachable true zero_path always.
Definition zero_angle_planner := planner reachable true zero_path always arm.
Definition zero_angle_request := request reachable true zero_path always.

End Demo.

(** * Properties *)

Unset Implicit Arguments.

Section Properties.
Context {E : Collaborators}.

(** ** State-space construction *)

Lemma addJointDimensions_planar joint rest acc :
  getType joint = PLANAR ->
  addJointDimensions (joint :: rest) acc
  = addJointDimensions rest
      (acc ++ [((-1e3)%float, 1e3%float); ((-1e3)%float, 1e3%float);
               ((- M_PI)%float, M_PI)]).
Proof.
  intros Ht. simpl. rewrite Ht. unfold addDimension.
  now rewrite <- !app_assoc.
Qed.

Lemma addJointDimensions_bounded joint rest acc :
  getType joint = REVOLUTE \/ getType joint = PRISMATIC ->
  position_bounded_ (getVariableBounds joint (getName joint)) = true ->
  addJointDimensions (joint :: rest) acc
  = addJointDimensions rest
      (acc ++ [(min_position_ (getVariableBounds joint (getName joint)),
                max_position_ (getVariableBounds joint (getName joint)))]).
Proof.
  intros [Ht | Ht] Hb; simpl; rewrite Ht, Hb; reflexivity.
Qed.

Lemma addJointDimensions_unbounded joint rest acc :
  unbounded_joint joint = true ->
  addJointDimensions (joint :: rest) acc = None.
Proof.
  unfold unbounded_joint. intros Hu. simpl.
  destruct (getType joint); try discriminate;
    destruct (position_bounded_ _); simpl in Hu; congruence.
Qed.

Lemma addJointDimensions_other joint rest acc :
  other_joint_type (getType joint) = true ->
  addJointDimensions (joint :: rest) acc = addJointDimensions rest acc.
Proof.
  intros Ho. simpl. destruct (getType joint); simpl in Ho; congruence.
Qed.

(** The loop fails exactly on a revolute or prismatic joint without
    position bounds; joints of the other types never make it fail. *)
Lemma addJointDimensions_None joints : forall acc,
  addJointDimensions joints acc = None <->
  existsb unbounded_joint joints = true.
Proof.
  induction joints as [| joint rest IH]; intros acc.
  - simpl. split; discriminate.
  - simpl existsb. rewrite orb_true_iff.
    destruct (unbounded_joint joint) eqn:Hu.
    + rewrite addJointDimensions_unbounded by assumption. tauto.
    + unfold unbounded_joint in Hu. simpl.
      destruct (getType joint);
        try (rewrite IH; split; [now right | intros [? | ?]; [discriminate | assumption]]);
        apply negb_false_iff in Hu; rewrite Hu;
        rewrite IH; split; try (now right); intros [? | ?]; try discriminate; assumption.
Qed.

Lemma setupStateSpace_set_kinematic_state p ks req :
  setupStateSpace (set_kinematic_state p ks) req = setupStateSpace p req.
Proof. reflexivity. Qed.

Lemma setupStateSpace_None p req :
  setupStateSpace p req = None <->
  existsb unbounded_joint (getActiveJointModels (joint_model_group_ p)) = true.
Proof.
  unfold setupStateSpace. rewrite <- (addJointDimensions_None _ []).
  destruct (addJointDimensions _ _); split; congruence.
Qed.

(** ** The stages of [plan] *)

Lemma initialize_None req p :
  initialize req p = None <-> setupStateSpace p req = None.
Proof.
  unfold initialize. rewrite setupStateSpace_set_kinematic_state.
  destruct (setupStateSpace p req) as [space |]; [| tauto].
  unfold setSpaceParameters.
  destruct (getStartTF req _) as [tf_msg q]. simpl.
  split; discriminate.
Qed.

Lemma getStartTF_members req p :
  joint_model_group_ (snd (getStartTF req p)) = joint_model_group_ p /\
  passed_start_config_ (snd (getStartTF req p))
  = Nat.eqb (List.length (start_joint_state req))
      (getVariableCount (joint_model_group_ p)).
Proof.
  unfold getStartTF.
  destruct (Nat.eqb _ _); simpl; auto.
Qed.

Lemma initialize_Some req p space ss q :
  initialize req p = Some (space, ss, q) ->
  joint_model_group_ q = joint_model_group_ p /\
  passed_start_config_ q
  = Nat.eqb (List.length (start_joint_state req))
      (getVariableCount (joint_model_group_ p)).
Proof.
  unfold initialize.
  destruct (setupStateSpace _ req) as [space0 |]; [| discriminate].
  unfold setSpaceParameters.
  pose proof (getStartTF_members req (set_kinematic_state p setToDefaultValues)) as Hm.
  destruct (getStartTF req _) as [tf_msg q0]. simpl in *.
  intros Heq. injection Heq as _ _ <-. simpl. exact Hm.
Qed.

Lemma plan_INITIALIZATION_FAIL req res p :
  initialize req p = None ->
  plan req res p = (INITIALIZATION_FAIL, reset_response res).
Proof. intros Hi. unfold plan. now rewrite Hi. Qed.

Lemma plan_NO_IK_SOLUTION req res p space ss q starts goals q' :
  initialize req p = Some (space, ss, q) ->
  findCandidates req q = (false, starts, goals, q') ->
  plan req res p = (NO_IK_SOLUTION, reset_response res).
Proof. intros Hi Hc. unfold plan. now rewrite Hi, Hc. Qed.

Lemma plan_PLANNING_FAIL req res p space ss q starts goals q' ss' :
  initialize req p = Some (space, ss, q) ->
  findCandidates req q = (true, starts, goals, q') ->
  solve 5%float (defineProblem req space ss starts goals) = (false, ss') ->
  plan req res p = (PLANNING_FAIL, reset_response res).
Proof. intros Hi Hc Hs. unfold plan. now rewrite Hi, Hc, Hs. Qed.

Lemma plan_SUCCESS req res p space ss q starts goals q' ss' :
  initialize req p = Some (space, ss, q) ->
  findCandidates req q = (true, starts, goals, q') ->
  solve 5%float (defineProblem req space ss starts goals) = (true, ss') ->
  plan req res p
  = (SUCCESS,
     fst (populateResponse (simplifySolution 1%float ss')
            (ss_solution (simplifySolution 1%float ss')) req
            (reset_response res) q')).
Proof. intros Hi Hc Hs. unfold plan. now rewrite Hi, Hc, Hs. Qed.

(** After a successful set-up, [plan] returns NO_IK_SOLUTION exactly when
    candidate generation reports failure. *)
Lemma plan_NO_IK_SOLUTION_iff req res p space ss q :
  initialize req p = Some (space, ss, q) ->
  fst (plan req res p) = NO_IK_SOLUTION <->
  fst (fst (fst (findCandidates req q))) = false.
Proof.
  intros Hi. unfold plan. rewrite Hi.
  destruct (findCandidates req q) as [[[found starts] goals] q']. simpl.
  destruct found; simpl.
  - destruct (solve _ _) as [[|] ss']; simpl; split; discriminate.
  - tauto.
Qed.

(** ** Comparisons of doubles *)

Lemma SFcompare_antisym a b :
  SFcompare b a = option_map CompOpp (SFcompare a b).
Proof.
  destruct a as [sa | sa | | sa ma ea], b as [sb | sb | | sb mb eb]; simpl;
    try reflexivity;
    try (destruct sa; reflexivity); try (destruct sb; reflexivity);
    try (destruct sa, sb; reflexivity).
  destruct sa, sb; simpl; try reflexivity;
    rewrite (Z.compare_antisym ea eb);
    destruct (ea ?= eb)%Z; simpl; try reflexivity;
    rewrite (Pos.compare_cont_antisym _ _ Eq); simpl;
    destruct (Pos.compare_cont Eq ma mb); reflexivity.
Qed.

(** On doubles that are not NaN, [c < e] is the negation of [e <= c]. *)
Lemma ltb_negb_leb (c e : double) :
  PrimFloat.is_nan c = false -> PrimFloat.is_nan e = false ->
  (c <? e)%float = negb (e <=? c)%float.
Proof.
  unfold PrimFloat.is_nan.
  rewrite ltb_spec, leb_spec, !eqb_spec.
  unfold SFltb, SFleb, SFeqb.
  rewrite (SFcompare_antisym (Prim2SF c) (Prim2SF e)).
  destruct (Prim2SF c) as [sa | sa | | sa ma ea],
           (Prim2SF e) as [sb | sb | | sb mb eb];
    simpl; intros Hc He; try discriminate;
    try (destruct sa; reflexivity); try (destruct sb; reflexivity);
    try (destruct sa, sb; reflexivity).
  destruct sa, sb; simpl; try reflexivity;
    destruct (ea ?= eb)%Z; simpl; try reflexivity;
    destruct (Pos.compare_cont Eq ma mb); reflexivity.
Qed.

(** ** Trajectory extraction *)

Lemma checkStates_invalid ss req n bad post : forall pre res,
  Forall (fun st => isValid ss st = true) pre ->
  isValid ss bad = false ->
  checkStates ss req n (pre ++ bad :: post) res
  = Returned
      {| joint_trajectory :=
           {| joint_names := joint_names (joint_trajectory res);
              points := points (joint_trajectory res) ++ map (waypoint n) pre |};
         percentage_complete := (at_index (screw_state bad) 0 / theta req)%float;
         trajectory_is_valid := false;
         path_length := path_length res |}.
Proof.
  induction pre as [| st pre IH]; intros res Hpre Hbad.
  - simpl. rewrite Hbad. simpl.
    destruct res as [[names pts] pc v len]. simpl.
    now rewrite app_nil_r.
  - inversion Hpre as [| ? ? Hst Hrest]; subst.
    simpl. rewrite Hst. simpl.
    rewrite (IH _ Hrest Hbad). simpl.
    now rewrite <- app_assoc.
Qed.

Lemma checkStates_valid ss req n : forall states res,
  Forall (fun st => isValid ss st = true) states ->
  checkStates ss req n states res
  = Completed
      {| joint_trajectory :=
           {| joint_names := joint_names (joint_trajectory res);
              points := points (joint_trajectory res) ++ map (waypoint n) states |};
         percentage_complete := percentage_complete res;
         trajectory_is_valid := trajectory_is_valid res;
         path_length := path_length res |}.
Proof.
  induction states as [| st states IH]; intros res Hall.
  - simpl. rewrite app_nil_r. now destruct res as [[names pts] pc v len].
  - inversion Hall as [| ? ? Hst Hrest]; subst.
    simpl. rewrite Hst. simpl.
    rewrite (IH _ Hrest). simpl.
    now rewrite <- app_assoc.
Qed.

Lemma populateResponse_short ss solution req res p :
  (List.length solution < 2)%nat ->
  populateResponse ss solution req res p = (res, solution).
Proof.
  intros Hlen. unfold populateResponse.
  apply Nat.ltb_lt in Hlen. now rewrite Hlen.
Qed.

(** C2: the interpolated states are re-validated in order; at the first
    invalid state extraction stops with [trajectory_is_valid] false and
    [percentage_complete] that state's theta over the requested theta, and
    the response holds exactly the waypoints of the valid states before it,
    appended to the (empty, in [plan]) waypoint list it was given. *)
Theorem C2_first_invalid_state_stops_extraction
    ss solution req res p pre bad post :
  (2 <= List.length solution)%nat ->
  interpolate solution = pre ++ bad :: post ->
  Forall (fun st => isValid ss st = true) pre ->
  isValid ss bad = false ->
  let res' := fst (populateResponse ss solution req res p) in
  let num_joints := List.length (getVariableNames (joint_model_group_ p)) in
  trajectory_is_valid res' = false /\
  percentage_complete res' = (at_index (screw_state bad) 0 / theta req)%float /\
  points (joint_trajectory res')
  = points (joint_trajectory res) ++ map (waypoint num_joints) pre /\
  joint_names (joint_trajectory res') = getVariableNames (joint_model_group_ p) /\
  path_length res' = path_length res.
Proof.
  intros Hlen Hsplit Hpre Hbad. unfold populateResponse.
  apply Nat.ltb_ge in Hlen. rewrite Hlen, Hsplit.
  rewrite checkStates_invalid by assumption. simpl.
  repeat split; reflexivity.
Qed.

(** C5 (amended): when every interpolated state is valid and the absolute
    difference between the requested theta and the final state's theta is
    a number (not NaN), [trajectory_is_valid] is true exactly when that
    difference is at most 0.01; whatever the difference,
    [percentage_complete] is the final theta over the requested theta,
    [path_length] the length of the path, and every state gives a
    waypoint. *)
Theorem C5_valid_path_is_checked_against_goal ss solution req res p :
  (2 <= List.length solution)%nat ->
  interpolate solution <> [] ->
  Forall (fun st => isValid ss st = true) (interpolate solution) ->
  let res' := fst (populateResponse ss solution req res p) in
  let final_theta := at_index (screw_state (back (interpolate solution))) 0 in
  let err := fabs (theta req - final_theta)%float in
  (PrimFloat.is_nan err = false ->
   (trajectory_is_valid res' = true <-> (err <=? 0.01)%float = true)) /\
  percentage_complete res' = (final_theta / theta req)%float /\
  path_length res' = solution_length (interpolate solution) /\
  points (joint_trajectory res')
  = points (joint_trajectory res)
    ++ map (waypoint (List.length (getVariableNames (joint_model_group_ p))))
         (interpolate solution).
Proof.
  intros Hlen _ Hall res' final_theta err.
  assert (Hvalid : trajectory_is_valid res' = negb (0.01 <? err)%float).
  { subst res'. unfold populateResponse.
    apply Nat.ltb_ge in Hlen. rewrite Hlen.
    rewrite checkStates_valid by assumption. simpl.
    fold final_theta. fold err. now destruct (0.01 <? err)%float. }
  split; [| split; [| split]].
  - intros Hnan. rewrite Hvalid.
    rewrite (ltb_negb_leb 0.01%float err) by (assumption || reflexivity).
    now rewrite negb_involutive.
  - subst res'. unfold populateResponse.
    apply Nat.ltb_ge in Hlen. rewrite Hlen.
    now rewrite checkStates_valid by assumption.
  - subst res'. unfold populateResponse.
    apply Nat.ltb_ge in Hlen. rewrite Hlen.
    now rewrite checkStates_valid by assumption.
  - subst res'. unfold populateResponse.
    apply Nat.ltb_ge in Hlen. rewrite Hlen.
    rewrite checkStates_valid by assumption. simpl.
    now destruct (0.01 <? _)%float.
Qed.

(** C3: when the set-up and the candidate generation succeed and the
    external planner reports no solution, [plan] returns PLANNING_FAIL and
    the response is the reset one: no joint names, no waypoints,
    [trajectory_is_valid] false, [percentage_complete] zero. *)
Theorem C3_planner_failure_leaves_reset_response
    req res p space ss q starts goals q' :
  initialize req p = Some (space, ss, q) ->
  findCandidates req q = (true, starts, goals, q') ->
  fst (solve 5%float (defineProblem req space ss starts goals)) = false ->
  plan req res p = (PLANNING_FAIL, reset_response res) /\
  joint_names (joint_trajectory (snd (plan req res p))) = [] /\
  points (joint_trajectory (snd (plan req res p))) = [] /\
  trajectory_is_valid (snd (plan req res p)) = false /\
  percentage_complete (snd (plan req res p)) = 0%float.
Proof.
  intros Hi Hc Hs.
  destruct (solve _ _) as [solved ss'] eqn:Hsolve. simpl in Hs. subst solved.
  rewrite (plan_PLANNING_FAIL _ res _ _ _ _ _ _ _ _ Hi Hc Hsolve). simpl.
  repeat split; reflexivity.
Qed.

(** C10: whenever the external planner reports a solution, [plan] returns
    SUCCESS; when the solved path has fewer than two states, extraction
    returns before it writes anything and the response is the reset one: no
    joint names, no waypoints, [trajectory_is_valid] false,
    [percentage_complete] zero. *)
Theorem C10_success_with_short_path_leaves_reset_response
    req res p space ss q starts goals q' ss' :
  initialize req p = Some (space, ss, q) ->
  findCandidates req q = (true, starts, goals, q') ->
  solve 5%float (defineProblem req space ss starts goals) = (true, ss') ->
  fst (plan req res p) = SUCCESS /\
  ((List.length (ss_solution (simplifySolution 1%float ss')) < 2)%nat ->
   plan req res p = (SUCCESS, reset_response res) /\
   joint_names (joint_trajectory (snd (plan req res p))) = [] /\
   points (joint_trajectory (snd (plan req res p))) = [] /\
   trajectory_is_valid (snd (plan req res p)) = false /\
   percentage_complete (snd (plan req res p)) = 0%float).
Proof.
  intros Hi Hc Hs.
  rewrite (plan_SUCCESS _ res _ _ _ _ _ _ _ _ Hi Hc Hs).
  split; [reflexivity |].
  intros Hlen.
  rewrite populateResponse_short by assumption. simpl.
  repeat split; reflexivity.
Qed.

(** ** Candidate generation *)

Lemma wrap_small n : SizeT.in_range n -> SizeT.wrap n = n.
Proof. unfold SizeT.in_range, SizeT.wrap. intros H. now apply Z.mod_small. Qed.

Lemma wrap_le n : 0 <= n -> 0 <= SizeT.wrap n <= n.
Proof.
  unfold SizeT.wrap, SizeT.modulus. intros H. split.
  - apply Z.mod_pos_bound. lia.
  - apply Z.mod_le; lia.
Qed.

Lemma wrap_in_range n : SizeT.in_range (SizeT.wrap n).
Proof.
  unfold SizeT.in_range, SizeT.wrap, SizeT.modulus.
  apply Z.mod_pos_bound. lia.
Qed.

Lemma size_nonneg {A} (v : list A) : 0 <= SizeT.size v.
Proof. unfold SizeT.size. lia. Qed.

Lemma size_push_back {A} (v : list A) a : SizeT.size (v ++ [a]) = SizeT.size v + 1.
Proof. unfold SizeT.size. rewrite length_app. simpl. lia. Qed.

Lemma size_zero {A} (v : list A) : (0 <? SizeT.size v) = false <-> v = [].
Proof.
  unfold SizeT.size. destruct v as [| a v]; simpl.
  - split; reflexivity.
  - split; [| discriminate]. intros H. apply Z.ltb_ge in H. lia.
Qed.

Lemma pairwise_distinct_push_back pool jv :
  pairwise_distinct (pool ++ [jv])
  = pairwise_distinct pool && checkDuplicateState pool jv.
Proof.
  unfold checkDuplicateState.
  induction pool as [| a pool IH]; simpl.
  - reflexivity.
  - rewrite forallb_app, IH. simpl.
    destruct (forallb _ pool), (within_duplicate_threshold a jv),
      (pairwise_distinct pool), (forallb _ pool); reflexivity.
Qed.

(** What one call of [increaseStateList] does to a pool: nothing, or it
    appends the IK solution, and then the solution passed the duplicate
    check against the whole pool. *)
Lemma increaseStateList_cases pose pool p :
  fst (increaseStateList pose pool p) = pool \/
  exists joint_values,
    fst (setFromIK (joint_model_group_ p) pose (kinematic_state_ p)) = true /\
    joint_values
    = copyJointGroupPositions (joint_model_group_ p)
        (snd (setFromIK (joint_model_group_ p) pose (kinematic_state_ p))) /\
    checkDuplicateState pool joint_values = true /\
    fst (increaseStateList pose pool p) = pool ++ [joint_values].
Proof.
  unfold increaseStateList.
  destruct (setFromIK _ pose _) as [found ks]. simpl.
  destruct found; simpl; [| now left].
  destruct (checkDuplicateState pool _) eqn:Hdup; simpl; [| now left].
  right. eexists. repeat split. exact Hdup.
Qed.

Lemma increaseStateList_group pose pool p :
  joint_model_group_ (snd (increaseStateList pose pool p)) = joint_model_group_ p.
Proof.
  unfold increaseStateList.
  destruct (setFromIK _ pose _) as [found ks].
  destruct found; simpl; [| reflexivity].
  now destruct (checkDuplicateState pool _).
Qed.

Lemma increaseStateList_size pose pool p :
  SizeT.size pool <= SizeT.size (fst (increaseStateList pose pool p))
  <= SizeT.size pool + 1.
Proof.
  destruct (increaseStateList_cases pose pool p) as [-> | (jv & _ & _ & _ & ->)].
  - lia.
  - rewrite size_push_back. lia.
Qed.

Lemma increaseStateList_distinct pose pool p :
  pairwise_distinct pool = true ->
  pairwise_distinct (fst (increaseStateList pose pool p)) = true.
Proof.
  intros Hpool.
  destruct (increaseStateList_cases pose pool p) as [-> | (jv & _ & _ & Hdup & ->)].
  - assumption.
  - now rewrite pairwise_distinct_push_back, Hpool, Hdup.
Qed.

(** *** The loop of [findGoalStates] *)

Lemma findGoalStates_loop_step fuel pose num_goal i goal_configs p :
  SizeT.size goal_configs < num_goal ->
  i < SizeT.mul 2 num_goal ->
  findGoalStates_loop (S fuel) pose num_goal i goal_configs p
  = findGoalStates_loop fuel pose num_goal (SizeT.add i 1)
      (fst (increaseStateList pose goal_configs p))
      (randomize (snd (increaseStateList pose goal_configs p))).
Proof.
  intros Hsize Hi. simpl.
  apply Z.ltb_lt in Hsize, Hi. rewrite Hsize, Hi. simpl.
  now destruct (increaseStateList pose goal_configs p).
Qed.

Lemma findGoalStates_loop_full fuel pose num_goal i goal_configs p :
  num_goal <= SizeT.size goal_configs ->
  findGoalStates_loop fuel pose num_goal i goal_configs p = (i, goal_configs, p).
Proof.
  intros Hsize. destruct fuel as [| fuel]; simpl; [reflexivity |].
  apply Z.ltb_ge in Hsize. now rewrite Hsize.
Qed.

Lemma findGoalStates_loop_distinct pose num_goal : forall fuel i goal_configs p,
  pairwise_distinct goal_configs = true ->
  pairwise_distinct
    (snd (fst (findGoalStates_loop fuel pose num_goal i goal_configs p))) = true.
Proof.
  induction fuel as [| fuel IH]; intros i goal_configs p Hpool; simpl.
  - assumption.
  - destruct (_ && _); [| assumption].
    pose proof (increaseStateList_distinct pose goal_configs p Hpool) as Hnext.
    destruct (increaseStateList pose goal_configs p) as [pool1 p1].
    now apply IH.
Qed.

(** With fuel for the iterations that are left, the loop ends because its
    condition is false: the quota is met or the budget is used up. *)
Lemma findGoalStates_loop_exit pose num_goal :
  forall fuel i goal_configs p,
  0 <= i <= SizeT.mul 2 num_goal ->
  (Z.to_nat (SizeT.mul 2 num_goal - i) <= fuel)%nat ->
  SizeT.size goal_configs <= num_goal ->
  let run := findGoalStates_loop fuel pose num_goal i goal_configs p in
  i <= fst (fst run) <= SizeT.mul 2 num_goal /\
  SizeT.size (snd (fst run)) <= num_goal /\
  (SizeT.size (snd (fst run)) = num_goal \/ fst (fst run) = SizeT.mul 2 num_goal).
Proof.
  pose proof (wrap_in_range (2 * num_goal)) as Hbudget.
  fold (SizeT.mul 2 num_goal) in Hbudget. unfold SizeT.in_range in Hbudget.
  induction fuel as [| fuel IH]; intros i goal_configs p Hi Hfuel Hsize; simpl.
  - repeat split; lia.
  - destruct (SizeT.size goal_configs <? num_goal) eqn:Hquota;
      [destruct (i <? SizeT.mul 2 num_goal) eqn:Hmore |]; simpl.
    + apply Z.ltb_lt in Hquota, Hmore.
      pose proof (increaseStateList_size pose goal_configs p) as Hgrow.
      destruct (increaseStateList pose goal_configs p) as [pool1 p1].
      simpl in Hgrow.
      assert (Hnext : SizeT.add i 1 = i + 1).
      { unfold SizeT.add. apply wrap_small. unfold SizeT.in_range. lia. }
      rewrite Hnext.
      destruct (IH (i + 1) pool1 (randomize p1)) as (Hi' & Hsize' & Hstop);
        lia.
    + apply Z.ltb_ge in Hmore. repeat split; lia.
    + apply Z.ltb_ge in Hquota. repeat split; lia.
Qed.

(** *** The loop of [findStartGoalStates] *)

Lemma findStartGoalStates_loop_step
    fuel start_pose_msg goal_pose_msg num_start num_goal i starts goals p :
  SizeT.size starts < num_start \/ SizeT.size goals < num_goal ->
  i < SizeT.mul 2 (SizeT.add num_goal num_start) ->
  let seeded := randomize p in
  let start_attempt :=
    if SizeT.size starts <? num_start
    then increaseStateList start_pose_msg starts seeded
    else (starts, seeded) in
  let goal_attempt :=
    if SizeT.size goals <? num_goal
    then increaseStateList goal_pose_msg goals (snd start_attempt)
    else (goals, snd start_attempt) in
  findStartGoalStates_loop (S fuel) start_pose_msg goal_pose_msg
    num_start num_goal i starts goals p
  = findStartGoalStates_loop fuel start_pose_msg goal_pose_msg
      num_start num_goal (SizeT.add i 1)
      (fst start_attempt) (fst goal_attempt) (snd goal_attempt).
Proof.
  intros Hquota Hi. simpl.
  apply Z.ltb_lt in Hi. rewrite Hi, andb_true_r.
  assert (Hor : (SizeT.size starts <? num_start)
                || (SizeT.size goals <? num_goal) = true).
  { apply orb_true_iff. rewrite !Z.ltb_lt. exact Hquota. }
  rewrite Hor.
  destruct (if SizeT.size starts <? num_start then _ else _) as [starts1 p1].
  simpl.
  now destruct (if SizeT.size goals <? num_goal then _ else _) as [goals1 p2].
Qed.

Lemma findStartGoalStates_loop_full
    fuel start_pose_msg goal_pose_msg num_start num_goal i starts goals p :
  num_start <= SizeT.size starts ->
  num_goal <= SizeT.size goals ->
  findStartGoalStates_loop fuel start_pose_msg goal_pose_msg
    num_start num_goal i starts goals p
  = (i, starts, goals, p).
Proof.
  intros Hs Hg. destruct fuel as [| fuel]; simpl; [reflexivity |].
  apply Z.ltb_ge in Hs, Hg. now rewrite Hs, Hg.
Qed.

Lemma findStartGoalStates_loop_distinct
    start_pose_msg goal_pose_msg num_start num_goal :
  forall fuel i starts goals p,
  pairwise_distinct starts = true ->
  pairwise_distinct goals = true ->
  let run := findStartGoalStates_loop fuel start_pose_msg goal_pose_msg
               num_start num_goal i starts goals p in
  pairwise_distinct (snd (fst (fst run))) = true /\
  pairwise_distinct (snd (fst run)) = true.
Proof.
  induction fuel as [| fuel IH]; intros i starts goals p Hs Hg; simpl.
  - now split.
  - destruct (_ && _); [| now split].
    pose proof (increaseStateList_distinct start_pose_msg starts (randomize p) Hs)
      as Hs1.
    destruct (SizeT.size starts <? num_start);
      [destruct (increaseStateList start_pose_msg starts (randomize p))
         as [starts1 p1] |];
      simpl in *.
    + pose proof (increaseStateList_distinct goal_pose_msg goals p1 Hg) as Hg1.
      destruct (SizeT.size goals <? num_goal);
        [destruct (increaseStateList goal_pose_msg goals p1) as [goals1 p2] |];
        simpl in *; now apply IH.
    + pose proof (increaseStateList_distinct goal_pose_msg goals (randomize p) Hg)
        as Hg1.
      destruct (SizeT.size goals <? num_goal);
        [destruct (increaseStateList goal_pose_msg goals (randomize p))
           as [goals1 p2] |];
        simpl in *; now apply IH.
Qed.

Lemma findStartGoalStates_loop_exit
    start_pose_msg goal_pose_msg num_start num_goal :
  let budget := SizeT.mul 2 (SizeT.add num_goal num_start) in
  forall fuel i starts goals p,
  0 <= i <= budget ->
  (Z.to_nat (budget - i) <= fuel)%nat ->
  SizeT.size starts <= num_start ->
  SizeT.size goals <= num_goal ->
  let run := findStartGoalStates_loop fuel start_pose_msg goal_pose_msg
               num_start num_goal i starts goals p in
  i <= fst (fst (fst run)) <= budget /\
  SizeT.size (snd (fst (fst run))) <= num_start /\
  SizeT.size (snd (fst run)) <= num_goal /\
  (SizeT.size (snd (fst (fst run))) = num_start /\
   SizeT.size (snd (fst run)) = num_goal
   \/ fst (fst (fst run)) = budget).
Proof.
  intros budget.
  pose proof (wrap_in_range (2 * SizeT.add num_goal num_start)) as Hbudget.
  fold (SizeT.mul 2 (SizeT.add num_goal num_start)) in Hbudget.
  fold budget in Hbudget. unfold SizeT.in_range in Hbudget.
  induction fuel as [| fuel IH]; intros i starts goals p Hi Hfuel Hs Hg; simpl.
  - repeat split; lia.
  - fold budget.
    destruct (i <? budget) eqn:Hmore;
      [| rewrite andb_false_r; simpl; apply Z.ltb_ge in Hmore; repeat split; lia].
    rewrite andb_true_r. apply Z.ltb_lt in Hmore.
    assert (Hnext : SizeT.add i 1 = i + 1).
    { unfold SizeT.add. apply wrap_small. unfold SizeT.in_range. lia. }
    rewrite Hnext.
    pose proof (increaseStateList_size start_pose_msg starts (randomize p)) as Hs1.
    destruct (SizeT.size starts <? num_start) eqn:Hqs;
      destruct (SizeT.size goals <? num_goal) eqn:Hqg; simpl;
      rewrite ?Z.ltb_lt, ?Z.ltb_ge in Hqs, Hqg.
    + destruct (increaseStateList start_pose_msg starts (randomize p))
        as [starts1 p1]; simpl in Hs1.
      pose proof (increaseStateList_size goal_pose_msg goals p1) as Hg1.
      destruct (increaseStateList goal_pose_msg goals p1) as [goals1 p2];
        simpl in Hg1.
      destruct (IH (i + 1) starts1 goals1 p2) as (H1 & H2 & H3 & H4); lia.
    + destruct (increaseStateList start_pose_msg starts (randomize p))
        as [starts1 p1]; simpl in Hs1.
      destruct (IH (i + 1) starts1 goals p1) as (H1 & H2 & H3 & H4); lia.
    + pose proof (increaseStateList_size goal_pose_msg goals (randomize p)) as Hg1.
      destruct (increaseStateList goal_pose_msg goals (randomize p))
        as [goals1 p2]; simpl in Hg1.
      destruct (IH (i + 1) starts goals1 p2) as (H1 & H2 & H3 & H4); lia.
    + repeat split; lia.
Qed.

(** *** The two generators *)

Lemma findStartGoalStates_guard req num_start num_goal start_configs goal_configs p :
  num_goal < 1 \/ num_start < 1 ->
  findStartGoalStates req num_start num_goal start_configs goal_configs p
  = (false, start_configs, goal_configs, p).
Proof.
  intros Hguard. unfold findStartGoalStates.
  assert (Hor : (num_goal <? 1) || (num_start <? 1) = true).
  { apply orb_true_iff. now rewrite !Z.ltb_lt. }
  now rewrite Hor.
Qed.

Lemma findGoalStates_size_mismatch req num_goal start_configs goal_configs p :
  List.length (start_joint_state req) <> getVariableCount (joint_model_group_ p) ->
  findGoalStates req num_goal start_configs goal_configs p = (false, [], [], p).
Proof.
  intros Hsize. unfold findGoalStates.
  apply Nat.eqb_neq in Hsize. now rewrite Hsize.
Qed.

Lemma increaseStateList_value pose pool q :
  increaseStateList pose pool q
  = let ik := setFromIK (joint_model_group_ q) pose (kinematic_state_ q) in
    let joint_values := copyJointGroupPositions (joint_model_group_ q) (snd ik) in
    (if fst ik && checkDuplicateState pool joint_values
     then pool ++ [joint_values] else pool,
     set_kinematic_state q (snd ik)).
Proof.
  unfold increaseStateList.
  destruct (setFromIK _ pose _) as [found ks]. simpl.
  destruct found; simpl; [| reflexivity].
  now destruct (checkDuplicateState pool _).
Qed.

(** C6: in start-given mode the goal generation runs at most 2 x num_goal
    iterations.  An iteration solves the IK at the goal pose on the current
    kinematic state, keeps the joint values copied from the solved state
    only if the solve succeeded and they pass the duplicate check against
    the goals already accepted, and then sets the kinematic state to
    random positions.  The loop stops once num_goal goals are collected;
    failure is reported (and [plan] returns NO_IK_SOLUTION) exactly when no
    goal configuration was found. *)
Theorem C6_start_given_goal_generation req num_goal start_configs goal_configs p :
  SizeT.in_range num_goal ->
  List.length (start_joint_state req) = getVariableCount (joint_model_group_ p) ->
  let seeded :=
    set_kinematic_state p
      (setJointGroupPositions (joint_model_group_ p) (start_joint_state req)
         (kinematic_state_ p)) in
  let pose := toMsg (goal_pose_ seeded) in
  let budget := SizeT.mul 2 num_goal in
  let run := findGoalStates_loop (Z.to_nat budget) pose num_goal 0 [] seeded in
  let iterations := fst (fst run) in
  let goals := snd (fst run) in
  findGoalStates req num_goal start_configs goal_configs p
  = (0 <? SizeT.size goals, [start_joint_state req], goals, snd run) /\
  0 <= iterations <= 2 * num_goal /\
  SizeT.size goals <= num_goal /\
  (SizeT.size goals = num_goal \/ iterations = budget) /\
  (fst (fst (fst (findGoalStates req num_goal start_configs goal_configs p)))
   = false <-> goals = []) /\
  (forall fuel i pool q,
     SizeT.size pool < num_goal -> i < budget ->
     let ik := setFromIK (joint_model_group_ q) pose (kinematic_state_ q) in
     let joint_values :=
       copyJointGroupPositions (joint_model_group_ q) (snd ik) in
     let kept :=
       if fst ik && checkDuplicateState pool joint_values
       then pool ++ [joint_values] else pool in
     let reseeded :=
       {| joint_model_group_ := joint_model_group_ q;
          kinematic_state_ := setToRandomPositions (snd ik);
          passed_start_config_ := passed_start_config_ q;
          screw_axis_ := screw_axis_ q; start_pose_ := start_pose_ q;
          goal_pose_ := goal_pose_ q |} in
     findGoalStates_loop (S fuel) pose num_goal i pool q
     = findGoalStates_loop fuel pose num_goal (SizeT.add i 1) kept reseeded) /\
  (forall fuel i pool q,
     num_goal <= SizeT.size pool ->
     findGoalStates_loop fuel pose num_goal i pool q = (i, pool, q)) /\
  (num_goal = 10 ->
   forall res p0 space ss,
     initialize req p0 = Some (space, ss, p) ->
     (fst (plan req res p0) = NO_IK_SOLUTION <-> goals = [])).
Proof.
  intros Hrange Hsize seeded pose budget run iterations goals.
  assert (Hresult : forall sc gc,
    findGoalStates req num_goal sc gc p
    = (0 <? SizeT.size goals, [start_joint_state req], goals, snd run)).
  { intros sc gc. unfold findGoalStates. rewrite Hsize, Nat.eqb_refl.
    subst goals iterations run budget pose seeded. simpl.
    now destruct (findGoalStates_loop _ _ _ _ _ _) as [[i pool] q]. }
  pose proof (wrap_le (2 * num_goal)) as Hwrap.
  fold (SizeT.mul 2 num_goal) in Hwrap. fold budget in Hwrap.
  unfold SizeT.in_range in Hrange.
  destruct (findGoalStates_loop_exit pose num_goal (Z.to_nat budget) 0 [] seeded)
    as (Hiter & Hquota & Hstop).
  { fold budget. lia. }
  { fold budget. lia. }
  { unfold SizeT.size. simpl. lia. }
  fold budget in Hiter, Hstop. fold run in Hiter, Hquota, Hstop.
  fold iterations in Hiter, Hstop. fold goals in Hquota, Hstop.
  split; [apply Hresult |].
  split; [lia |].
  split; [exact Hquota |].
  split; [exact Hstop |].
  split; [rewrite Hresult; simpl; apply size_zero |].
  split.
  { intros fuel i pool q Hpool Hi.
    rewrite findGoalStates_loop_step by assumption.
    rewrite increaseStateList_value. reflexivity. }
  split; [intros; now apply findGoalStates_loop_full |].
  intros Hten res p0 space ss Hinit.
  rewrite (plan_NO_IK_SOLUTION_iff req res p0 _ _ _ Hinit).
  destruct (initialize_Some _ _ _ _ _ Hinit) as (Hgroup & Hpassed).
  unfold findCandidates. rewrite Hpassed, <- Hgroup, Hsize, Nat.eqb_refl.
  rewrite <- (size_zero goals). subst num_goal.
  rewrite Hresult. simpl. tauto.
Qed.

(** C7 (amended): in start-and-goal mode the generation first tests the
    quotas: with num_goal or num_start below 1 it reports failure at once
    and leaves the vectors of the caller as they are.  Otherwise it clears
    them and runs at most 2 x (num_start + num_goal) iterations.  An
    iteration sets the kinematic state to random positions, then, while the
    start quota is unmet, solves the IK at the start pose and keeps the
    joint values if the solve succeeded and they pass the duplicate check
    against the starts, then does the same at the goal pose for the goals.
    The loop stops as soon as both quotas are met, and failure is reported
    exactly when the start set or the goal set is empty at its end; [plan],
    which passes the quotas 5 and 10, then returns NO_IK_SOLUTION. *)
Theorem C7_start_and_goal_generation req num_start num_goal start_configs goal_configs p :
  SizeT.in_range num_start ->
  SizeT.in_range num_goal ->
  let start_pose_msg := geometry_msgs.pose (start_pose req) in
  let goal_pose_msg := toMsg (goal_pose_ p) in
  let budget := SizeT.mul 2 (SizeT.add num_goal num_start) in
  let run := findStartGoalStates_loop (Z.to_nat budget) start_pose_msg
               goal_pose_msg num_start num_goal 0 [] [] p in
  let iterations := fst (fst (fst run)) in
  let starts := snd (fst (fst run)) in
  let goals := snd (fst run) in
  let out := findStartGoalStates req num_start num_goal
               start_configs goal_configs p in
  (num_goal < 1 \/ num_start < 1 ->
   out = (false, start_configs, goal_configs, p)) /\
  (1 <= num_goal -> 1 <= num_start ->
   out = ((0 <? SizeT.size starts) && (0 <? SizeT.size goals),
          starts, goals, snd run)) /\
  0 <= iterations <= 2 * (num_start + num_goal) /\
  SizeT.size starts <= num_start /\
  SizeT.size goals <= num_goal /\
  (SizeT.size starts = num_start /\ SizeT.size goals = num_goal
   \/ iterations = budget) /\
  (fst (fst (fst out)) = false
   <-> (num_goal < 1 \/ num_start < 1) \/ starts = [] \/ goals = []) /\
  (forall fuel i pool_s pool_g q,
     SizeT.size pool_s < num_start \/ SizeT.size pool_g < num_goal ->
     i < budget ->
     let ks0 := setToRandomPositions (kinematic_state_ q) in
     let try_start := SizeT.size pool_s <? num_start in
     let ik_s := setFromIK (joint_model_group_ q) start_pose_msg ks0 in
     let values_s := copyJointGroupPositions (joint_model_group_ q) (snd ik_s) in
     let kept_s :=
       if try_start && (fst ik_s && checkDuplicateState pool_s values_s)
       then pool_s ++ [values_s] else pool_s in
     let ks1 := if try_start then snd ik_s else ks0 in
     let try_goal := SizeT.size pool_g <? num_goal in
     let ik_g := setFromIK (joint_model_group_ q) goal_pose_msg ks1 in
     let values_g := copyJointGroupPositions (joint_model_group_ q) (snd ik_g) in
     let kept_g :=
       if try_goal && (fst ik_g && checkDuplicateState pool_g values_g)
       then pool_g ++ [values_g] else pool_g in
     let ks2 := if try_goal then snd ik_g else ks1 in
     findStartGoalStates_loop (S fuel) start_pose_msg goal_pose_msg
       num_start num_goal i pool_s pool_g q
     = findStartGoalStates_loop fuel start_pose_msg goal_pose_msg
         num_start num_goal (SizeT.add i 1) kept_s kept_g
         {| joint_model_group_ := joint_model_group_ q;
            kinematic_state_ := ks2;
            passed_start_config_ := passed_start_config_ q;
            screw_axis_ := screw_axis_ q; start_pose_ := start_pose_ q;
            goal_pose_ := goal_pose_ q |}) /\
  (forall fuel i pool_s pool_g q,
     num_start <= SizeT.size pool_s -> num_goal <= SizeT.size pool_g ->
     findStartGoalStates_loop fuel start_pose_msg goal_pose_msg
       num_start num_goal i pool_s pool_g q
     = (i, pool_s, pool_g, q)) /\
  (num_start = 5 -> num_goal = 10 ->
   forall res p0 space ss,
     initialize req p0 = Some (space, ss, p) ->
     passed_start_config_ p = false ->
     (fst (plan req res p0) = NO_IK_SOLUTION <-> starts = [] \/ goals = [])).
Proof.
  intros Hns Hng start_pose_msg goal_pose_msg budget run iterations starts
    goals out.
  unfold SizeT.in_range in Hns, Hng.
  assert (Hresult : forall sc gc, 1 <= num_goal -> 1 <= num_start ->
    findStartGoalStates req num_start num_goal sc gc p
    = ((0 <? SizeT.size starts) && (0 <? SizeT.size goals), starts, goals, snd run)).
  { intros sc gc Hg Hs. unfold findStartGoalStates.
    assert (Hguard : (num_goal <? 1) || (num_start <? 1) = false).
    { apply orb_false_iff. rewrite !Z.ltb_ge. lia. }
    rewrite Hguard.
    fold start_pose_msg. fold goal_pose_msg. fold budget. fold run.
    subst starts goals. now destruct run as [[[i pool_s] pool_g] q]. }
  assert (Hfail :
    (0 <? SizeT.size starts) && (0 <? SizeT.size goals) = false
    <-> starts = [] \/ goals = []).
  { rewrite andb_false_iff, !size_zero. tauto. }
  assert (Hbudget : 0 <= budget <= 2 * (num_start + num_goal)).
  { unfold budget, SizeT.mul, SizeT.add.
    pose proof (wrap_le (num_goal + num_start)) as H1.
    pose proof (wrap_le (2 * SizeT.wrap (num_goal + num_start))) as H2.
    lia. }
  destruct (findStartGoalStates_loop_exit start_pose_msg goal_pose_msg
              num_start num_goal (Z.to_nat budget) 0 [] [] p)
    as (Hiter & Hqs & Hqg & Hstop).
  { fold budget. lia. }
  { fold budget. lia. }
  { unfold SizeT.size. simpl. lia. }
  { unfold SizeT.size. simpl. lia. }
  fold budget in Hiter, Hstop. fold run in Hiter, Hqs, Hqg, Hstop.
  fold iterations in Hiter, Hstop. fold starts in Hqs, Hstop.
  fold goals in Hqg, Hstop.
  split; [intros; now apply findStartGoalStates_guard |].
  split; [intros; now apply Hresult |].
  split; [lia |].
  split; [exact Hqs |].
  split; [exact Hqg |].
  split; [exact Hstop |].
  split.
  { subst out.
    destruct (Z_lt_ge_dec num_goal 1) as [Hg | Hg];
      [| destruct (Z_lt_ge_dec num_start 1) as [Hs | Hs]].
    - rewrite findStartGoalStates_guard by now left. simpl. tauto.
    - rewrite findStartGoalStates_guard by now right. simpl. tauto.
    - rewrite Hresult by lia. simpl. rewrite Hfail.
      split; [tauto | intros [[H | H] | H]; [lia | lia | exact H]]. }
  split.
  { intros fuel i pool_s pool_g q Hquota Hi.
    rewrite findStartGoalStates_loop_step by assumption.
    cbv zeta.
    destruct (SizeT.size pool_s <? num_start), (SizeT.size pool_g <? num_goal);
      rewrite ?increaseStateList_value; reflexivity. }
  split; [intros; now apply findStartGoalStates_loop_full |].
  intros Hfive Hten res p0 space ss Hinit Hpassed.
  rewrite (plan_NO_IK_SOLUTION_iff req res p0 _ _ _ Hinit).
  unfold findCandidates. rewrite Hpassed. subst num_start num_goal.
  rewrite Hresult by lia. simpl. exact Hfail.
Qed.

(** C9: no candidate pool holds two configurations that are duplicates
    within the duplicate-distance threshold, in either generation mode: an
    IK solution is appended to a pool only after it passed the duplicate
    check against every configuration already in that pool. *)
Theorem C9_candidate_pools_have_no_duplicates
    req num_start num_goal start_configs goal_configs p :
  let given := findGoalStates req num_goal start_configs goal_configs p in
  let both := findStartGoalStates req num_start num_goal [] [] p in
  let planned := findCandidates req p in
  pairwise_distinct (snd (fst (fst given))) = true /\
  pairwise_distinct (snd (fst given)) = true /\
  pairwise_distinct (snd (fst (fst both))) = true /\
  pairwise_distinct (snd (fst both)) = true /\
  pairwise_distinct (snd (fst (fst planned))) = true /\
  pairwise_distinct (snd (fst planned)) = true /\
  (forall pose pool q,
     fst (increaseStateList pose pool q) = pool \/
     exists joint_values,
       Forall (fun st => within_duplicate_threshold st joint_values = false) pool /\
       fst (increaseStateList pose pool q) = pool ++ [joint_values]).
Proof.
  assert (Hgiven : forall n sc gc,
    pairwise_distinct (snd (fst (fst (findGoalStates req n sc gc p)))) = true /\
    pairwise_distinct (snd (fst (findGoalStates req n sc gc p))) = true).
  { intros n sc gc. unfold findGoalStates.
    destruct (negb _); [now split |].
    match goal with
    | |- context [findGoalStates_loop ?f ?a ?b ?c ?d ?e] =>
        pose proof (findGoalStates_loop_distinct a b f c d e eq_refl) as Hd;
        destruct (findGoalStates_loop f a b c d e) as [[i pool] q]
    end.
    now split. }
  assert (Hboth : forall ns ng,
    pairwise_distinct
      (snd (fst (fst (findStartGoalStates req ns ng [] [] p)))) = true /\
    pairwise_distinct (snd (fst (findStartGoalStates req ns ng [] [] p))) = true).
  { intros ns ng. unfold findStartGoalStates.
    destruct (_ || _); [now split |].
    match goal with
    | |- context [findStartGoalStates_loop ?f ?a ?b ?c ?d ?e ?s ?g ?q] =>
        pose proof (findStartGoalStates_loop_distinct a b c d f e s g q
                      eq_refl eq_refl) as Hd;
        destruct (findStartGoalStates_loop f a b c d e s g q)
          as [[[i pool_s] pool_g] q']
    end.
    exact Hd. }
  intros given both planned.
  destruct (Hgiven num_goal start_configs goal_configs) as (H1 & H2).
  destruct (Hboth num_start num_goal) as (H3 & H4).
  assert (H56 : pairwise_distinct (snd (fst (fst planned))) = true /\
                pairwise_distinct (snd (fst planned)) = true).
  { subst planned. unfold findCandidates.
    destruct (passed_start_config_ p); [apply Hgiven | apply Hboth]. }
  destruct H56 as (H5 & H6).
  repeat (split; [assumption |]).
  intros pose pool q.
  destruct (increaseStateList_cases pose pool q)
    as [Hsame | (jv & _ & _ & Hdup & Hpush)]; [now left |].
  right. exists jv. split; [| exact Hpush].
  unfold checkDuplicateState in Hdup. rewrite forallb_forall in Hdup.
  apply Forall_forall. intros st Hin.
  specialize (Hdup st Hin). now apply negb_true_iff in Hdup.
Qed.

(** ** The start configuration of a request *)

(** C1 (amended): a start_joint_state whose size differs from the variable
    count makes [findGoalStates] fail, but [plan] does not call it on such a
    request: [getStartTF] takes the request as one without a start
    configuration, candidates are generated in start-and-goal mode from the
    start pose, and [plan] returns NO_IK_SOLUTION exactly when the set-up
    succeeded and that generation found no start or no goal. *)
Theorem C1_wrong_size_start_state_is_not_used req res p :
  List.length (start_joint_state req) <> getVariableCount (joint_model_group_ p) ->
  (forall num_goal start_configs goal_configs,
     findGoalStates req num_goal start_configs goal_configs p
     = (false, [], [], p)) /\
  match initialize req p with
  | None => plan req res p = (INITIALIZATION_FAIL, reset_response res)
  | Some (_, _, q) =>
      passed_start_config_ q = false /\
      findCandidates req q = findStartGoalStates req 5 10 [] [] q /\
      (fst (plan req res p) = NO_IK_SOLUTION
       <-> fst (fst (fst (findStartGoalStates req 5 10 [] [] q))) = false)
  end.
Proof.
  intros Hsize. split.
  - intros. now apply findGoalStates_size_mismatch.
  - destruct (initialize req p) as [[[space ss] q] |] eqn:Hinit.
    + destruct (initialize_Some _ _ _ _ _ Hinit) as (_ & Hpassed).
      apply Nat.eqb_neq in Hsize. rewrite Hsize in Hpassed.
      assert (Hmode : findCandidates req q = findStartGoalStates req 5 10 [] [] q).
      { unfold findCandidates. now rewrite Hpassed. }
      repeat split; try assumption;
        rewrite (plan_NO_IK_SOLUTION_iff req res p _ _ _ Hinit), Hmode; tauto.
    + now apply plan_INITIALIZATION_FAIL.
Qed.

(** ** Further properties of the set-up *)

Lemma addJointDimensions_Some joints : forall acc joint_space,
  addJointDimensions joints acc = Some joint_space ->
  joint_space = acc ++ flat_map joint_bounds joints.
Proof.
  induction joints as [| joint rest IH]; intros acc js Hloop; simpl in *.
  - rewrite app_nil_r. congruence.
  - unfold joint_bounds.
    destruct (getType joint);
      try (rewrite (IH _ _ Hloop); simpl; reflexivity).
    + destruct (position_bounded_ _); [| discriminate].
      rewrite (IH _ _ Hloop). unfold addDimension.
      now rewrite <- app_assoc.
    + destruct (position_bounded_ _); [| discriminate].
      rewrite (IH _ _ Hloop). unfold addDimension.
      now rewrite <- app_assoc.
    + rewrite (IH _ _ Hloop). unfold addDimension.
      now rewrite <- !app_assoc.
Qed.

Lemma setupStateSpace_Some p req :
  existsb unbounded_joint (getActiveJointModels (joint_model_group_ p)) = false ->
  setupStateSpace p req
  = Some {| screw_space := [(0%float, theta req)];
            joint_space :=
              flat_map joint_bounds (getActiveJointModels (joint_model_group_ p));
            params := []; sampler_allocated := false; locked := false |}.
Proof.
  intros Hbounded.
  destruct (setupStateSpace p req) as [space |] eqn:Hsetup.
  - unfold setupStateSpace in Hsetup.
    destruct (addJointDimensions _ _) as [js |] eqn:Hloop; [| discriminate].
    apply addJointDimensions_Some in Hloop. simpl in Hloop. subst js.
    now injection Hsetup as <-.
  - apply setupStateSpace_None in Hsetup. congruence.
Qed.

(** X1: state-space construction fails exactly when some active joint is
    revolute or prismatic and has no position bounds. *)
Theorem X1_setupStateSpace_fails_on_unbounded_joint p req :
  setupStateSpace p req = None <->
  exists joint,
    In joint (getActiveJointModels (joint_model_group_ p)) /\
    (getType joint = REVOLUTE \/ getType joint = PRISMATIC) /\
    position_bounded_ (getVariableBounds joint (getName joint)) = false.
Proof.
  rewrite setupStateSpace_None, existsb_exists.
  split; intros (joint & Hin & Hjoint); exists joint; (split; [exact Hin |]).
  - unfold unbounded_joint in Hjoint.
    destruct (getType joint); try discriminate;
      apply negb_true_iff in Hjoint; auto.
  - unfold unbounded_joint.
    destruct Hjoint as ([Htype | Htype] & Hbounds); rewrite Htype, Hbounds;
      reflexivity.
Qed.

(** X2: when no active joint is an unbounded revolute or prismatic joint,
    the space built has one screw dimension with bounds (0, theta) and the
    joint dimensions of the active joints in their order: three for a
    planar joint, one for a revolute or prismatic joint, none for a joint
    of another type; it has no parameters yet and is not locked. *)
Theorem X2_setupStateSpace_dimensions p req :
  existsb unbounded_joint (getActiveJointModels (joint_model_group_ p)) = false ->
  exists space,
    setupStateSpace p req = Some space /\
    screw_space space = [(0%float, theta req)] /\
    joint_space space
    = flat_map joint_bounds (getActiveJointModels (joint_model_group_ p)) /\
    List.length (joint_space space)
    = list_sum
        (map (fun joint => match getType joint with
                           | PLANAR => 3%nat
                           | REVOLUTE | PRISMATIC => 1%nat
                           | _ => 0%nat
                           end)
           (getActiveJointModels (joint_model_group_ p))) /\
    params space = [] /\ locked space = false.
Proof.
  intros Hbounded. eexists. split; [now apply setupStateSpace_Some |].
  simpl. repeat split. clear Hbounded.
  induction (getActiveJointModels (joint_model_group_ p)) as [| joint rest IH];
    simpl; [reflexivity |].
  rewrite length_app, IH. f_equal.
  unfold joint_bounds. now destruct (getType joint).
Qed.

Lemma initialize_value req p :
  initialize req p
  = match setupStateSpace p req with
    | None => None
    | Some space =>
        let p0 := set_kinematic_state p setToDefaultValues in
        let space2 :=
          allocate_sampler_and_lock (snd (fst (setSpaceParameters req space p0))) in
        Some (space2,
              {| ss_space := space2; ss_start_states := []; ss_goal := [];
                 ss_solution := [] |},
              snd (setSpaceParameters req space p0))
    end.
Proof.
  unfold initialize. rewrite setupStateSpace_set_kinematic_state.
  destruct (setupStateSpace p req) as [space |]; [| reflexivity].
  unfold setSpaceParameters.
  now destruct (getStartTF req _) as [tf_msg q].
Qed.

(** X3: [plan] returns INITIALIZATION_FAIL exactly when some active joint is
    an unbounded revolute or prismatic joint: the parameter set-up and the
    creation of the SimpleSetup never fail. *)
Theorem X3_plan_initialization_fails_iff_unbounded_joint req res p :
  fst (plan req res p) = INITIALIZATION_FAIL <->
  existsb unbounded_joint (getActiveJointModels (joint_model_group_ p)) = true.
Proof.
  rewrite <- (setupStateSpace_None p req), <- (initialize_None req p).
  unfold plan.
  destruct (initialize req p) as [[[space ss] q] |]; simpl;
    [| split; reflexivity].
  destruct (findCandidates req q) as [[[found starts] goals] q'].
  destruct found; simpl; [| split; discriminate].
  destruct (solve _ _) as [[|] ss']; simpl; split; discriminate.
Qed.

(** X4: whenever [plan] returns a code other than SUCCESS, the response is
    the reset one (no joint names, no waypoints, invalid, completion 0);
    its [path_length] is the one the caller passed in, which the reset does
    not clear. *)
Theorem X4_plan_failure_leaves_reset_response req res p :
  fst (plan req res p) <> SUCCESS ->
  snd (plan req res p) = reset_response res /\
  joint_trajectory (snd (plan req res p))
  = {| joint_names := []; points := [] |} /\
  trajectory_is_valid (snd (plan req res p)) = false /\
  percentage_complete (snd (plan req res p)) = 0%float /\
  path_length (snd (plan req res p)) = path_length res.
Proof.
  unfold plan.
  destruct (initialize req p) as [[[space ss] q] |]; simpl;
    [| now repeat split].
  destruct (findCandidates req q) as [[[found starts] goals] q'].
  destruct found; simpl; [| now repeat split].
  destruct (solve _ _) as [[|] ss']; simpl; [congruence | now repeat split].
Qed.

(** X6: what a successful set-up hands on.  The space is locked, has its
    sampler allocated and the dimensions [setupStateSpace] built; the four
    parameters were added to it: screw_param with the request's screw
    transformed by the start transform, pose_param with the start pose in
    the frame of the request's start pose, ee_frame_name with the
    request's frame name and move_group with the group's name.  The
    SimpleSetup is built on this space.  The planner's mode flag says
    whether start_joint_state has as many values as the group has
    variables, its start pose is the start transform and its goal pose the
    start transform composed with the screw motion by theta. *)
Theorem X6_initialize_postcondition req p space ss q :
  initialize req p = Some (space, ss, q) ->
  let tf_msg := fst (getStartTF req (set_kinematic_state p setToDefaultValues)) in
  let screw := transformScrew (screw_msg req) tf_msg in
  screw_space space = [(0%float, theta req)] /\
  joint_space space
  = flat_map joint_bounds (getActiveJointModels (joint_model_group_ p)) /\
  In ("screw_param"%string, screwMsgToStr screw) (params space) /\
  In ("pose_param"%string,
      poseToStr
        {| geometry_msgs.frame_id := geometry_msgs.frame_id (start_pose req);
           geometry_msgs.pose := toMsg (transformToEigen tf_msg) |})
    (params space) /\
  In ("ee_frame_name"%string, ee_frame_name req) (params space) /\
  In ("move_group"%string, group_name (joint_model_group_ p)) (params space) /\
  locked space = true /\ sampler_allocated space = true /\
  ss_space ss = space /\
  joint_model_group_ q = joint_model_group_ p /\
  passed_start_config_ q
  = Nat.eqb (List.length (start_joint_state req))
      (getVariableCount (joint_model_group_ p)) /\
  start_pose_ q = transformToEigen tf_msg /\
  goal_pose_ q
  = compose (transformToEigen tf_msg) (getTF (setScrewAxis screw) (theta req)).
Proof.
  intros Hinit tf_msg screw.
  destruct (initialize_Some _ _ _ _ _ Hinit) as (Hgroup & Hpassed).
  rewrite initialize_value in Hinit.
  destruct (setupStateSpace p req) as [space0 |] eqn:Hsetup; [| discriminate].
  assert (Hbounded :
    existsb unbounded_joint (getActiveJointModels (joint_model_group_ p)) = false).
  { destruct (existsb _ _) eqn:Hex; [| reflexivity].
    apply (setupStateSpace_None p req) in Hex. congruence. }
  rewrite (setupStateSpace_Some p req Hbounded) in Hsetup.
  injection Hsetup as <-.
  simpl in Hinit. injection Hinit as <- <- <-.
  subst screw tf_msg.
  unfold setSpaceParameters in *.
  pose proof (getStartTF_members req (set_kinematic_state p setToDefaultValues))
    as (Hg & Hp).
  assert (Hstart :
    start_pose_ (snd (getStartTF req (set_kinematic_state p setToDefaultValues)))
    = transformToEigen
        (fst (getStartTF req (set_kinematic_state p setToDefaultValues)))).
  { unfold getStartTF. now destruct (Nat.eqb _ _). }
  destruct (getStartTF req _) as [tf q0]. simpl in *.
  rewrite Hg, Hstart.
  repeat split; auto 10.
Qed.

Lemma fold_addStartState (f : list double -> CompoundState) configs : forall ss,
  fold_left (fun ss0 c => addStartState (f c) ss0) configs ss
  = {| ss_space := ss_space ss;
       ss_start_states := ss_start_states ss ++ map f configs;
       ss_goal := ss_goal ss; ss_solution := ss_solution ss |}.
Proof.
  induction configs as [| c configs IH]; intros ss; simpl.
  - rewrite app_nil_r. now destruct ss.
  - rewrite IH. simpl. now rewrite <- app_assoc.
Qed.

(** X7: the problem handed to the planner keeps the space and adds one
    start state per start configuration, in order, each made by
    [vectorToState] from the screw vector [0] and the configuration; its
    goal holds one state per goal configuration, each made from the screw
    vector [theta] and the configuration, and replaces any earlier goal. *)
Theorem X7_defineProblem_states req space ss start_configs goal_configs :
  let problem := defineProblem req space ss start_configs goal_configs in
  ss_space problem = ss_space ss /\
  ss_start_states problem
  = ss_start_states ss
    ++ map (vectorToState space [0%float]) start_configs /\
  ss_goal problem = map (vectorToState space [theta req]) goal_configs /\
  List.length (ss_start_states problem)
  = (List.length (ss_start_states ss) + List.length start_configs)%nat /\
  List.length (ss_goal problem) = List.length goal_configs.
Proof.
  unfold defineProblem.
  rewrite (fold_addStartState (vectorToState space [0%float])). simpl.
  repeat split.
  - now rewrite length_app, length_map.
  - now rewrite length_map.
Qed.

(** ** Further properties of candidate generation *)

Lemma increaseStateList_no_ik pose pool p :
  fst (setFromIK (joint_model_group_ p) pose (kinematic_state_ p)) = false ->
  fst (increaseStateList pose pool p) = pool.
Proof.
  intros Hik. unfold increaseStateList.
  destruct (setFromIK _ pose _) as [found ks]. simpl in Hik. now subst found.
Qed.

Lemma increaseStateList_ik_solution pose pool p :
  Forall (ik_solution (joint_model_group_ p) pose) pool ->
  Forall (ik_solution (joint_model_group_ p) pose)
    (fst (increaseStateList pose pool p)).
Proof.
  intros Hpool.
  destruct (increaseStateList_cases pose pool p)
    as [-> | (jv & Hik & Hjv & _ & ->)]; [assumption |].
  apply Forall_app. split; [assumption |].
  constructor; [| constructor].
  exists (kinematic_state_ p). now split.
Qed.

Lemma increaseStateList_extends pose pool p :
  exists added,
    fst (increaseStateList pose pool p) = pool ++ added /\
    SizeT.size added <= 1.
Proof.
  destruct (increaseStateList_cases pose pool p)
    as [-> | (jv & _ & _ & _ & ->)].
  - exists []. rewrite app_nil_r. split; [reflexivity | unfold SizeT.size; simpl; lia].
  - exists [jv]. split; [reflexivity | unfold SizeT.size; simpl; lia].
Qed.

Lemma size_app {A} (u v : list A) : SizeT.size (u ++ v) = SizeT.size u + SizeT.size v.
Proof. unfold SizeT.size. rewrite length_app. lia. Qed.

(** What the loop of [findGoalStates] keeps, from any state and with any
    fuel: the pool only grows at its end, by at most one configuration per
    iteration, the group of the planner stays, and configurations that are
    IK solutions at the goal pose stay so. *)
Lemma findGoalStates_loop_invariant pose num_goal : forall fuel i pool p,
  0 <= i ->
  let run := findGoalStates_loop fuel pose num_goal i pool p in
  joint_model_group_ (snd run) = joint_model_group_ p /\
  (exists added,
     snd (fst run) = pool ++ added /\ SizeT.size added <= fst (fst run) - i) /\
  (Forall (ik_solution (joint_model_group_ p) pose) pool ->
   Forall (ik_solution (joint_model_group_ p) pose) (snd (fst run))) /\
  ((forall ks, fst (setFromIK (joint_model_group_ p) pose ks) = false) ->
   snd (fst run) = pool).
Proof.
  pose proof (wrap_in_range (2 * num_goal)) as Hbudget.
  fold (SizeT.mul 2 num_goal) in Hbudget. unfold SizeT.in_range in Hbudget.
  assert (Hstop : forall i pool p,
    joint_model_group_ p = joint_model_group_ p /\
    (exists added : list (list double),
       pool = pool ++ added /\ SizeT.size added <= i - i) /\
    (Forall (ik_solution (joint_model_group_ p) pose) pool ->
     Forall (ik_solution (joint_model_group_ p) pose) pool) /\
    ((forall ks, fst (setFromIK (joint_model_group_ p) pose ks) = false) ->
     pool = pool)).
  { intros i pool p. repeat split; auto.
    exists []. rewrite app_nil_r. split; [reflexivity |].
    unfold SizeT.size. simpl. lia. }
  induction fuel as [| fuel IH]; intros i pool p Hi; simpl; [apply Hstop |].
  destruct (SizeT.size pool <? num_goal); simpl; [| apply Hstop].
  destruct (i <? SizeT.mul 2 num_goal) eqn:Hmore; [| apply Hstop].
  apply Z.ltb_lt in Hmore.
  pose proof (increaseStateList_group pose pool p) as Hgroup.
  pose proof (increaseStateList_extends pose pool p) as (added1 & Hext & Hone).
  pose proof (increaseStateList_ik_solution pose pool p) as Hsol.
  pose proof (increaseStateList_no_ik pose pool p) as Hnone.
  destruct (increaseStateList pose pool p) as [pool1 p1]. simpl in *.
  assert (Hnext : SizeT.add i 1 = i + 1).
  { unfold SizeT.add. apply wrap_small. unfold SizeT.in_range. lia. }
  rewrite Hnext. subst pool1.
  destruct (IH (i + 1) (pool ++ added1) (randomize p1))
    as (Hg & (added & Hadd & Hsize) & Hs & Hn); [lia |].
  simpl in Hg, Hs, Hn. rewrite Hgroup in Hg, Hs, Hn.
  split; [exact Hg |]. split; [| split].
  - exists (added1 ++ added). rewrite Hadd, <- app_assoc.
    split; [reflexivity |]. rewrite size_app. lia.
  - intros Hpool. apply Hs, Hsol, Hpool.
  - intros Hik. rewrite (Hn Hik). apply Hnone, Hik.
Qed.

Lemma findStartGoalStates_loop_invariant
    start_pose_msg goal_pose_msg num_start num_goal :
  forall fuel i starts goals p,
  0 <= i ->
  let run := findStartGoalStates_loop fuel start_pose_msg goal_pose_msg
               num_start num_goal i starts goals p in
  joint_model_group_ (snd run) = joint_model_group_ p /\
  (exists added,
     snd (fst (fst run)) = starts ++ added /\
     SizeT.size added <= fst (fst (fst run)) - i) /\
  (exists added,
     snd (fst run) = goals ++ added /\
     SizeT.size added <= fst (fst (fst run)) - i) /\
  (Forall (ik_solution (joint_model_group_ p) start_pose_msg) starts ->
   Forall (ik_solution (joint_model_group_ p) start_pose_msg)
     (snd (fst (fst run)))) /\
  (Forall (ik_solution (joint_model_group_ p) goal_pose_msg) goals ->
   Forall (ik_solution (joint_model_group_ p) goal_pose_msg) (snd (fst run))) /\
  ((forall pose ks, fst (setFromIK (joint_model_group_ p) pose ks) = false) ->
   snd (fst (fst run)) = starts /\ snd (fst run) = goals).
Proof.
  pose proof (wrap_in_range (2 * SizeT.add num_goal num_start)) as Hbudget.
  fold (SizeT.mul 2 (SizeT.add num_goal num_start)) in Hbudget.
  unfold SizeT.in_range in Hbudget.
  assert (Hnil : forall (pool : list (list double)) (i : Z),
            exists added, pool = pool ++ added /\ SizeT.size added <= i - i).
  { intros pool i. exists []. rewrite app_nil_r. split; [reflexivity |].
    unfold SizeT.size. simpl. lia. }
  induction fuel as [| fuel IH]; intros i starts goals p Hi; simpl;
    [repeat split; auto |].
  destruct (_ || _); simpl; [| repeat split; auto].
  destruct (i <? SizeT.mul 2 (SizeT.add num_goal num_start)) eqn:Hmore;
    [| repeat split; auto].
  apply Z.ltb_lt in Hmore.
  assert (Hnext : SizeT.add i 1 = i + 1).
  { unfold SizeT.add. apply wrap_small. unfold SizeT.in_range. lia. }
  rewrite Hnext.
  (* the start attempt *)
  assert (Hstart : exists starts1 p1,
    (if SizeT.size starts <? num_start
     then increaseStateList start_pose_msg starts (randomize p)
     else (starts, randomize p)) = (starts1, p1) /\
    joint_model_group_ p1 = joint_model_group_ p /\
    (exists added, starts1 = starts ++ added /\ SizeT.size added <= 1) /\
    (Forall (ik_solution (joint_model_group_ p) start_pose_msg) starts ->
     Forall (ik_solution (joint_model_group_ p) start_pose_msg) starts1) /\
    ((forall pose ks, fst (setFromIK (joint_model_group_ p) pose ks) = false) ->
     starts1 = starts)).
  { destruct (SizeT.size starts <? num_start).
    - pose proof (increaseStateList_group start_pose_msg starts (randomize p)) as Hg.
      pose proof (increaseStateList_extends start_pose_msg starts (randomize p)) as He.
      pose proof (increaseStateList_ik_solution start_pose_msg starts (randomize p)) as Hs.
      pose proof (increaseStateList_no_ik start_pose_msg starts (randomize p)) as Hn.
      destruct (increaseStateList start_pose_msg starts (randomize p)) as [s1 q1].
      simpl in *. exists s1, q1. repeat split; auto.
    - exists starts, (randomize p). repeat split; auto.
      exists []. rewrite app_nil_r. split; [reflexivity |].
      unfold SizeT.size. simpl. lia. }
  destruct Hstart as (starts1 & p1 & -> & Hg1 & (add_s & Hadd_s & Hone_s) & Hs1 & Hn1).
  (* the goal attempt *)
  assert (Hgoal : exists goals1 p2,
    (if SizeT.size goals <? num_goal
     then increaseStateList goal_pose_msg goals p1
     else (goals, p1)) = (goals1, p2) /\
    joint_model_group_ p2 = joint_model_group_ p /\
    (exists added, goals1 = goals ++ added /\ SizeT.size added <= 1) /\
    (Forall (ik_solution (joint_model_group_ p) goal_pose_msg) goals ->
     Forall (ik_solution (joint_model_group_ p) goal_pose_msg) goals1) /\
    ((forall pose ks, fst (setFromIK (joint_model_group_ p) pose ks) = false) ->
     goals1 = goals)).
  { destruct (SizeT.size goals <? num_goal).
    - pose proof (increaseStateList_group goal_pose_msg goals p1) as Hg.
      pose proof (increaseStateList_extends goal_pose_msg goals p1) as He.
      pose proof (increaseStateList_ik_solution goal_pose_msg goals p1) as Hs.
      pose proof (increaseStateList_no_ik goal_pose_msg goals p1) as Hn.
      destruct (increaseStateList goal_pose_msg goals p1) as [g1 q2].
      simpl in *. rewrite Hg1 in Hg, Hs, Hn.
      exists g1, q2. repeat split; auto.
    - exists goals, p1. repeat split; auto.
      exists []. rewrite app_nil_r. split; [reflexivity |].
      unfold SizeT.size. simpl. lia. }
  destruct Hgoal as (goals1 & p2 & -> & Hg2 & (add_g & Hadd_g & Hone_g) & Hs2 & Hn2).
  subst starts1 goals1.
  destruct (IH (i + 1) (starts ++ add_s) (goals ++ add_g) p2)
    as (Hg & (as' & Has & Hss) & (ag' & Hag & Hsg) & Hfs & Hfg & Hno); [lia |].
  rewrite Hg2 in Hg, Hfs, Hfg, Hno.
  split; [exact Hg |].
  split; [exists (add_s ++ as'); rewrite Has, <- app_assoc;
          split; [reflexivity | rewrite size_app; lia] |].
  split; [exists (add_g ++ ag'); rewrite Hag, <- app_assoc;
          split; [reflexivity | rewrite size_app; lia] |].
  split; [intros Hpool; apply Hfs, Hs1, Hpool |].
  split; [intros Hpool; apply Hfg, Hs2, Hpool |].
  intros Hik. destruct (Hno Hik) as (Hrs & Hrg).
  rewrite Hrs, Hrg. split; [apply Hn1, Hik | apply Hn2, Hik].
Qed.

Lemma findGoalStates_no_ik req num_goal start_configs goal_configs p :
  (forall pose ks, fst (setFromIK (joint_model_group_ p) pose ks) = false) ->
  fst (fst (fst (findGoalStates req num_goal start_configs goal_configs p)))
  = false.
Proof.
  intros Hik. unfold findGoalStates. destruct (negb _); [reflexivity |].
  match goal with
  | |- context [findGoalStates_loop ?f ?a ?b ?c ?d ?e] =>
      destruct (findGoalStates_loop_invariant a b f c d e)
        as (_ & _ & _ & Hnone); [lia |];
      specialize (Hnone (Hik a));
      destruct (findGoalStates_loop f a b c d e) as [[i pool] q']
  end.
  cbn [fst snd] in *. now subst pool.
Qed.

Lemma findStartGoalStates_no_ik req num_start num_goal start_configs goal_configs p :
  (forall pose ks, fst (setFromIK (joint_model_group_ p) pose ks) = false) ->
  fst (fst (fst (findStartGoalStates req num_start num_goal
                   start_configs goal_configs p))) = false.
Proof.
  intros Hik. unfold findStartGoalStates. destruct (_ || _); [reflexivity |].
  match goal with
  | |- context [findStartGoalStates_loop ?f ?a ?b ?c ?d ?e ?s ?g ?r] =>
      destruct (findStartGoalStates_loop_invariant a b c d f e s g r)
        as (_ & _ & _ & _ & _ & Hnone); [lia |];
      destruct (Hnone Hik) as (Hs & Hg);
      destruct (findStartGoalStates_loop f a b c d e s g r)
        as [[[i pool_s] pool_g] q']
  end.
  cbn [fst snd] in *. now subst pool_s.
Qed.

(** X8: when state-space construction succeeds and inverse kinematics
    fails on every attempt, [plan] returns NO_IK_SOLUTION with the reset
    response, in either generation mode. *)
Theorem X8_plan_without_any_ik_solution req res p :
  existsb unbounded_joint (getActiveJointModels (joint_model_group_ p)) = false ->
  (forall pose ks, fst (setFromIK (joint_model_group_ p) pose ks) = false) ->
  plan req res p = (NO_IK_SOLUTION, reset_response res).
Proof.
  intros Hbounded Hik.
  destruct (initialize req p) as [[[space ss] q] |] eqn:Hinit.
  - destruct (initialize_Some _ _ _ _ _ Hinit) as (Hgroup & _).
    rewrite <- Hgroup in Hik.
    assert (Hfail : fst (fst (fst (findCandidates req q))) = false).
    { unfold findCandidates. destruct (passed_start_config_ q).
      - now apply findGoalStates_no_ik.
      - now apply findStartGoalStates_no_ik. }
    destruct (findCandidates req q) as [[[found starts] goals] q'] eqn:Hc.
    simpl in Hfail. subst found.
    exact (plan_NO_IK_SOLUTION req res p _ _ _ _ _ _ Hinit Hc).
  - apply initialize_None, setupStateSpace_None in Hinit. congruence.
Qed.

(** X9: in start-given mode one IK success is enough: when the first IK
    solve, seeded with the given start configuration, succeeds, goal
    generation reports success and the first goal is that solution (for a
    quota of at least 1 whose double fits [size_t]). *)
Theorem X9_first_ik_success_gives_a_goal req num_goal start_configs goal_configs p :
  1 <= num_goal -> 2 * num_goal < SizeT.modulus ->
  List.length (start_joint_state req) = getVariableCount (joint_model_group_ p) ->
  let seeded :=
    setJointGroupPositions (joint_model_group_ p) (start_joint_state req)
      (kinematic_state_ p) in
  let attempt := setFromIK (joint_model_group_ p) (toMsg (goal_pose_ p)) seeded in
  fst attempt = true ->
  let out := findGoalStates req num_goal start_configs goal_configs p in
  fst (fst (fst out)) = true /\
  hd_error (snd (fst out))
  = Some (copyJointGroupPositions (joint_model_group_ p) (snd attempt)).
Proof.
  intros Hquota Hfits Hsize seeded attempt Hik out.
  subst out. unfold findGoalStates. rewrite Hsize, Nat.eqb_refl. simpl.
  assert (Hbudget : SizeT.mul 2 num_goal = 2 * num_goal).
  { unfold SizeT.mul. apply wrap_small. unfold SizeT.in_range. lia. }
  destruct (Z.to_nat (SizeT.mul 2 num_goal)) as [| fuel] eqn:Hfuel; [lia |].
  rewrite findGoalStates_loop_step;
    [| unfold SizeT.size; simpl; lia | lia].
  assert (Hfirst :
    fst (increaseStateList (toMsg (goal_pose_ p)) []
           (set_kinematic_state p seeded))
    = [copyJointGroupPositions (joint_model_group_ p) (snd attempt)]).
  { unfold increaseStateList. simpl. fold seeded. fold attempt.
    destruct attempt as [found ks]. simpl in Hik. subst found. reflexivity. }
  fold seeded. rewrite Hfirst.
  match goal with
  | |- context [findGoalStates_loop ?f ?a ?b ?c ?d ?e] =>
      destruct (findGoalStates_loop_invariant a b f c d e)
        as (_ & (added & Hadd & _) & _);
        [unfold SizeT.add; apply wrap_in_range |];
      destruct (findGoalStates_loop f a b c d e) as [[i pool] q']
  end.
  simpl in *. subst pool. split; reflexivity.
Qed.

(** X10: every configuration of a generated pool is an IK solution at the
    pose of its pool: the goals of both modes at the goal pose, the starts
    of start-and-goal mode at the start pose of the request. *)
Theorem X10_generated_candidates_are_ik_solutions
    req num_start num_goal start_configs goal_configs p :
  let given := findGoalStates req num_goal start_configs goal_configs p in
  let both := findStartGoalStates req num_start num_goal [] [] p in
  Forall (ik_solution (joint_model_group_ p) (toMsg (goal_pose_ p)))
    (snd (fst given)) /\
  Forall (ik_solution (joint_model_group_ p)
            (geometry_msgs.pose (start_pose req)))
    (snd (fst (fst both))) /\
  Forall (ik_solution (joint_model_group_ p) (toMsg (goal_pose_ p)))
    (snd (fst both)).
Proof.
  intros given both. split; [| split].
  - subst given. unfold findGoalStates. destruct (negb _); [constructor |].
    match goal with
    | |- context [findGoalStates_loop ?f ?a ?b ?c ?d ?e] =>
        destruct (findGoalStates_loop_invariant a b f c d e)
          as (_ & _ & Hsol & _); [lia |];
        destruct (findGoalStates_loop f a b c d e) as [[i pool] q']
    end.
    simpl in *. apply Hsol. constructor.
  - subst both. unfold findStartGoalStates. destruct (_ || _); [constructor |].
    match goal with
    | |- context [findStartGoalStates_loop ?f ?a ?b ?c ?d ?e ?s ?g ?r] =>
        destruct (findStartGoalStates_loop_invariant a b c d f e s g r)
          as (_ & _ & _ & Hsol & _); [lia |];
        destruct (findStartGoalStates_loop f a b c d e s g r)
          as [[[i pool_s] pool_g] q']
    end.
    simpl in *. apply Hsol. constructor.
  - subst both. unfold findStartGoalStates. destruct (_ || _); [constructor |].
    match goal with
    | |- context [findStartGoalStates_loop ?f ?a ?b ?c ?d ?e ?s ?g ?r] =>
        destruct (findStartGoalStates_loop_invariant a b c d f e s g r)
          as (_ & _ & _ & _ & Hsol & _); [lia |];
        destruct (findStartGoalStates_loop f a b c d e s g r)
          as [[[i pool_s] pool_g] q']
    end.
    simpl in *. apply Hsol. constructor.
Qed.

(** X11: an iteration adds at most one configuration to a pool, and
    nothing is ever removed: whenever the loops stop, each pool holds at
    most as many configurations as iterations were run. *)
Theorem X11_pool_size_is_bounded_by_iterations
    fuel start_pose_msg goal_pose_msg num_start num_goal p :
  let given := findGoalStates_loop fuel goal_pose_msg num_goal 0 [] p in
  let both := findStartGoalStates_loop fuel start_pose_msg goal_pose_msg
                num_start num_goal 0 [] [] p in
  SizeT.size (snd (fst given)) <= fst (fst given) /\
  SizeT.size (snd (fst (fst both))) <= fst (fst (fst both)) /\
  SizeT.size (snd (fst both)) <= fst (fst (fst both)).
Proof.
  intros given both.
  destruct (findGoalStates_loop_invariant goal_pose_msg num_goal fuel 0 [] p)
    as (_ & (added & Hadd & Hsize) & _); [lia |].
  destruct (findStartGoalStates_loop_invariant start_pose_msg goal_pose_msg
              num_start num_goal fuel 0 [] [] p)
    as (_ & (add_s & Hs & Hss) & (add_g & Hg & Hsg) & _); [lia |].
  fold given in Hadd, Hsize. fold both in Hs, Hss, Hg, Hsg.
  rewrite Hadd, Hs, Hg. simpl. lia.
Qed.

(** ** Further properties of trajectory extraction *)

(** A path is valid throughout, or splits at its first invalid state. *)
Lemma first_invalid_state (valid : CompoundState -> bool) states :
  (Forall (fun st => valid st = true) states /\
   valid_prefix valid states = states /\ forallb valid states = true)
  \/
  (exists pre bad post,
     states = pre ++ bad :: post /\
     Forall (fun st => valid st = true) pre /\ valid bad = false /\
     valid_prefix valid states = pre /\ forallb valid states = false).
Proof.
  induction states as [| st states IH]; simpl.
  - left. repeat split. constructor.
  - destruct (valid st) eqn:Hst; simpl.
    + destruct IH as [(Hall & Hprefix & Hb) | (pre & bad & post & -> & Hpre & Hbad & Hprefix & Hb)].
      * left. rewrite Hprefix. repeat split; [now constructor | exact Hb].
      * right. exists (st :: pre), bad, post. rewrite Hprefix.
        repeat split; [now constructor | exact Hbad | exact Hb].
    + right. exists [], st, states. repeat split; [constructor | exact Hst].
Qed.

Lemma map_at_index_seq (v : list double) :
  map (at_index v) (seq 0 (List.length v)) = v.
Proof.
  induction v as [| a v IH]; simpl; [reflexivity |].
  f_equal. rewrite <- seq_shift, map_map. exact IH.
Qed.

Lemma waypoint_of_full_state n state :
  List.length (robot_state state) = n ->
  waypoint n state = {| positions := robot_state state |}.
Proof.
  intros <-. unfold waypoint. now rewrite map_at_index_seq.
Qed.

Lemma populateResponse_long ss solution req res p :
  (2 <= List.length solution)%nat ->
  let n := List.length (getVariableNames (joint_model_group_ p)) in
  let states := interpolate solution in
  let res1 := set_joint_names res (getVariableNames (joint_model_group_ p)) in
  fst (populateResponse ss solution req res p)
  = match checkStates ss req n states res1 with
    | Returned res2 => res2
    | Completed res2 =>
        let final_theta := at_index (screw_state (back states)) 0 in
        set_path_length
          (set_percentage_complete
             (set_trajectory_is_valid res2
                (negb (0.01 <? fabs (theta req - final_theta))%float))
             (final_theta / theta req)%float)
          (solution_length states)
    end.
Proof.
  intros Hlen n states res1. unfold populateResponse.
  apply Nat.ltb_ge in Hlen. rewrite Hlen.
  fold states. fold res1. simpl joint_names. fold n.
  destruct (checkStates ss req n states res1); [reflexivity |].
  simpl. now destruct (0.01 <? _)%float.
Qed.

(** X12: for a solved path of at least two states, the waypoints added to
    the response are exactly the waypoints of the interpolated states that
    precede the first invalid one (all of them when every state is valid),
    in path order; each waypoint has as many positions as the response has
    joint names, which are the variable names of the group. *)
Theorem X12_waypoints_are_the_valid_prefix ss solution req res p :
  (2 <= List.length solution)%nat ->
  let res' := fst (populateResponse ss solution req res p) in
  let names := getVariableNames (joint_model_group_ p) in
  let kept := valid_prefix (isValid ss) (interpolate solution) in
  joint_names (joint_trajectory res') = names /\
  points (joint_trajectory res')
  = points (joint_trajectory res) ++ map (waypoint (List.length names)) kept /\
  Forall (fun pt => List.length (positions pt) = List.length names)
    (map (waypoint (List.length names)) kept) /\
  (List.length kept <= List.length (interpolate solution))%nat.
Proof.
  intros Hlen res' names kept.
  assert (Hshape : Forall (fun pt => List.length (positions pt) = List.length names)
                     (map (waypoint (List.length names)) kept)).
  { apply Forall_forall. intros pt Hin. apply in_map_iff in Hin.
    destruct Hin as (st & <- & _). unfold waypoint. simpl.
    now rewrite length_map, length_seq. }
  subst res'. rewrite populateResponse_long by assumption.
  destruct (first_invalid_state (isValid ss) (interpolate solution))
    as [(Hall & Hprefix & _) | (pre & bad & post & Hsplit & Hpre & Hbad & Hprefix & _)].
  - rewrite checkStates_valid by assumption. simpl.
    subst kept names. rewrite Hprefix in *.
    repeat split; [assumption | lia].
  - subst kept names. rewrite Hprefix in *.
    replace (checkStates ss req
               (List.length (getVariableNames (joint_model_group_ p)))
               (interpolate solution))
      with (checkStates ss req
              (List.length (getVariableNames (joint_model_group_ p)))
              (pre ++ bad :: post)) by now rewrite Hsplit.
    rewrite checkStates_invalid by assumption. simpl.
    repeat split; [assumption |].
    rewrite Hsplit, length_app. lia.
Qed.

(** X13: starting from a response marked invalid (as [plan] passes it), the
    response comes back marked valid exactly when the solved path has at
    least two states, every interpolated state is valid, and the final
    state's theta is not more than 0.01 away from the requested theta. *)
Theorem X13_trajectory_is_valid_iff ss solution req res p :
  trajectory_is_valid res = false ->
  let res' := fst (populateResponse ss solution req res p) in
  let final_theta := at_index (screw_state (back (interpolate solution))) 0 in
  trajectory_is_valid res' = true <->
  (2 <= List.length solution)%nat /\
  forallb (isValid ss) (interpolate solution) = true /\
  (0.01 <? fabs (theta req - final_theta))%float = false.
Proof.
  intros Hres res' final_theta. subst res'.
  destruct (Nat.ltb (List.length solution) 2) eqn:Hlen.
  - apply Nat.ltb_lt in Hlen.
    rewrite populateResponse_short by assumption. simpl. rewrite Hres.
    split; [discriminate | intros (H & _); lia].
  - apply Nat.ltb_ge in Hlen.
    rewrite populateResponse_long by assumption.
    destruct (first_invalid_state (isValid ss) (interpolate solution))
      as [(Hall & _ & Hb) | (pre & bad & post & Hsplit & Hpre & Hbad & _ & Hb)].
    + rewrite checkStates_valid by assumption. simpl.
      fold final_theta. rewrite Hb.
      destruct (0.01 <? _)%float; simpl; split; try tauto; try discriminate.
      intros (_ & _ & H). discriminate.
    + rewrite Hb. rewrite Hsplit.
      rewrite checkStates_invalid by assumption. simpl.
      split; [discriminate | intros (_ & H & _); discriminate].
Qed.

(** X14: for a solved path of at least two states whose interpolation is
    not empty, [percentage_complete] is the progress of a state of the
    interpolated path divided by the requested theta: of the last state
    when every state is valid, and otherwise of the first invalid state,
    the one that every state before it is valid. *)
Theorem X14_percentage_complete_comes_from_a_path_state ss solution req res p :
  (2 <= List.length solution)%nat ->
  interpolate solution <> [] ->
  exists state,
    In state (interpolate solution) /\
    percentage_complete (fst (populateResponse ss solution req res p))
    = (at_index (screw_state state) 0 / theta req)%float /\
    (forallb (isValid ss) (interpolate solution) = true ->
     state = back (interpolate solution)) /\
    (forallb (isValid ss) (interpolate solution) = false ->
     exists before after,
       interpolate solution = before ++ state :: after /\
       Forall (fun st => isValid ss st = true) before /\
       isValid ss state = false).
Proof.
  intros Hlen Hnonempty.
  rewrite populateResponse_long by assumption.
  destruct (first_invalid_state (isValid ss) (interpolate solution))
    as [(Hall & _ & Hb) | (pre & bad & post & Hsplit & Hpre & Hbad & _ & Hb)].
  - exists (back (interpolate solution)).
    rewrite checkStates_valid by assumption. simpl. rewrite Hb.
    repeat split; try discriminate.
    unfold back.
    destruct (exists_last Hnonempty) as (init & final & ->).
    rewrite last_last. apply in_or_app. right. now left.
  - exists bad. rewrite Hb.
    replace (checkStates ss req
               (List.length (getVariableNames (joint_model_group_ p)))
               (interpolate solution))
      with (checkStates ss req
              (List.length (getVariableNames (joint_model_group_ p)))
              (pre ++ bad :: post)) by now rewrite Hsplit.
    rewrite checkStates_invalid by assumption. simpl.
    split; [rewrite Hsplit; apply in_or_app; right; now left |].
    split; [reflexivity |].
    split; [discriminate |].
    intros _. exists pre, post. now repeat split.
Qed.

(** X15: when every interpolated state has exactly one robot value per
    variable name of the group, each waypoint is the whole joint vector of
    its state: the response lists the joint vectors of the valid prefix. *)
Theorem X15_waypoints_are_the_joint_vectors ss solution req res p :
  (2 <= List.length solution)%nat ->
  Forall (fun st => List.length (robot_state st)
                    = List.length (getVariableNames (joint_model_group_ p)))
    (interpolate solution) ->
  points (joint_trajectory (fst (populateResponse ss solution req res p)))
  = points (joint_trajectory res)
    ++ map (fun st => {| positions := robot_state st |})
         (valid_prefix (isValid ss) (interpolate solution)).
Proof.
  intros Hlen Hdim.
  assert (Hpoints : forall pre,
    Forall (fun st => List.length (robot_state st)
                      = List.length (getVariableNames (joint_model_group_ p))) pre ->
    map (waypoint (List.length (getVariableNames (joint_model_group_ p)))) pre
    = map (fun st => {| positions := robot_state st |}) pre).
  { intros pre Hpre. apply map_ext_in. intros st Hin.
    apply waypoint_of_full_state.
    rewrite Forall_forall in Hpre. now apply Hpre. }
  rewrite populateResponse_long by assumption.
  destruct (first_invalid_state (isValid ss) (interpolate solution))
    as [(Hall & Hprefix & _) | (pre & bad & post & Hsplit & Hpre & Hbad & Hprefix & _)].
  - rewrite checkStates_valid by assumption. simpl.
    rewrite Hprefix. now rewrite Hpoints.
  - rewrite Hprefix. rewrite Hsplit in Hdim |- *.
    rewrite checkStates_invalid by assumption. simpl.
    rewrite Hpoints; [reflexivity |].
    apply Forall_app in Hdim. tauto.
Qed.

(** ** The response of a whole call *)

Lemma findCandidates_group req p :
  joint_model_group_ (snd (findCandidates req p)) = joint_model_group_ p.
Proof.
  unfold findCandidates. destruct (passed_start_config_ p).
  - unfold findGoalStates. destruct (negb _); [reflexivity |].
    match goal with
    | |- context [findGoalStates_loop ?f ?a ?b ?c ?d ?e] =>
        destruct (findGoalStates_loop_invariant a b f c d e) as (Hg & _);
          [lia |];
        destruct (findGoalStates_loop f a b c d e) as [[i pool] q']
    end.
    exact Hg.
  - unfold findStartGoalStates. destruct (_ || _); [reflexivity |].
    match goal with
    | |- context [findStartGoalStates_loop ?f ?a ?b ?c ?d ?e ?s ?g ?r] =>
        destruct (findStartGoalStates_loop_invariant a b c d f e s g r)
          as (Hg & _); [lia |];
        destruct (findStartGoalStates_loop f a b c d e s g r)
          as [[[i pool_s] pool_g] q']
    end.
    exact Hg.
Qed.

Lemma populateResponse_marked_valid ss solution req res p :
  trajectory_is_valid res = false ->
  trajectory_is_valid (fst (populateResponse ss solution req res p)) = true ->
  joint_names (joint_trajectory (fst (populateResponse ss solution req res p)))
  = getVariableNames (joint_model_group_ p) /\
  points (joint_trajectory (fst (populateResponse ss solution req res p)))
  = points (joint_trajectory res)
    ++ map (waypoint (List.length (getVariableNames (joint_model_group_ p))))
         (interpolate solution) /\
  percentage_complete (fst (populateResponse ss solution req res p))
  = (at_index (screw_state (back (interpolate solution))) 0 / theta req)%float /\
  path_length (fst (populateResponse ss solution req res p))
  = solution_length (interpolate solution).
Proof.
  intros Hres.
  destruct (Nat.ltb (List.length solution) 2) eqn:Hlen.
  - apply Nat.ltb_lt in Hlen.
    rewrite populateResponse_short by assumption. simpl. congruence.
  - apply Nat.ltb_ge in Hlen.
    rewrite populateResponse_long by assumption.
    destruct (first_invalid_state (isValid ss) (interpolate solution))
      as [(Hall & _ & _) | (pre & bad & post & Hsplit & Hpre & Hbad & _ & _)].
    + rewrite checkStates_valid by assumption. simpl. now repeat split.
    + rewrite Hsplit. rewrite checkStates_invalid by assumption. simpl.
      discriminate.
Qed.

(** X16: a response that [plan] marks valid always comes with SUCCESS, and
    it is complete: its joint names are the variable names of the group and
    every waypoint has one position per joint name. *)
Theorem X16_valid_response_is_a_complete_success req res p :
  trajectory_is_valid (snd (plan req res p)) = true ->
  fst (plan req res p) = SUCCESS /\
  joint_names (joint_trajectory (snd (plan req res p)))
  = getVariableNames (joint_model_group_ p) /\
  Forall (fun pt => List.length (positions pt)
                    = List.length (getVariableNames (joint_model_group_ p)))
    (points (joint_trajectory (snd (plan req res p)))).
Proof.
  unfold plan.
  destruct (initialize req p) as [[[space ss] q] |] eqn:Hinit; simpl;
    [| discriminate].
  destruct (initialize_Some _ _ _ _ _ Hinit) as (Hgroup & _).
  pose proof (findCandidates_group req q) as Hkeep.
  destruct (findCandidates req q) as [[[found starts] goals] q'].
  simpl in Hkeep.
  destruct found; simpl; [| discriminate].
  destruct (solve _ _) as [[|] ss']; simpl; [| discriminate].
  intros Hvalid.
  destruct (populateResponse_marked_valid _ _ req (reset_response res) _
              eq_refl Hvalid)
    as (Hnames & Hpoints & _).
  rewrite Hnames, Hpoints, Hkeep, Hgroup. simpl.
  repeat split.
  apply Forall_forall. intros pt Hin. apply in_map_iff in Hin.
  destruct Hin as (st & <- & _). unfold waypoint. simpl.
  now rewrite length_map, length_seq.
Qed.

End Properties.

(** * The planner on explicit requests *)

(** C1, as stated, fails: the arm has one variable, the request gives a
    start_joint_state of two values, and [plan] returns SUCCESS. *)
Lemma C1_counterexample :
  let req := Demo.solving_request 1%float [0.1; 0.2]%float in
  List.length (start_joint_state req)
  <> getVariableCount (joint_model_group_ Demo.solving_planner) /\
  fst (plan req Demo.stale_response Demo.solving_planner) = SUCCESS /\
  fst (plan req Demo.stale_response Demo.solving_planner) <> NO_IK_SOLUTION.
Proof.
  intros req. split; [simpl; lia |].
  split; [vm_compute; reflexivity | vm_compute; discriminate].
Qed.

(** C1 (amended) on the same request. *)
Lemma C1_witness :
  let req := Demo.solving_request 1%float [0.1; 0.2]%float in
  List.length (start_joint_state req)
  <> getVariableCount (joint_model_group_ Demo.solving_planner) /\
  forall num_goal start_configs goal_configs,
    findGoalStates req num_goal start_configs goal_configs Demo.solving_planner
    = (false, [], [], Demo.solving_planner).
Proof.
  assert (Hsize :
    List.length
      (start_joint_state
         (Demo.solving_request 1%float [0.1; 0.2]%float))
    <> getVariableCount (joint_model_group_ Demo.solving_planner)).
  { simpl. lia. }
  split; [exact Hsize |].
  exact (proj1 (C1_wrong_size_start_state_is_not_used
                  (Demo.solving_request 1%float [0.1; 0.2]%float)
                  Demo.stale_response Demo.solving_planner Hsize)).
Defined.

(** C2 on a path whose third state is invalid: two waypoints are kept. *)
Lemma C2_witness :
  let res' :=
    fst (populateResponse (E := Demo.blocked) Demo.empty_setup Demo.blocked_path
           (Demo.blocked_request 1%float [0.25%float])
           (reset_response Demo.stale_response) Demo.blocked_planner) in
  trajectory_is_valid res' = false /\
  percentage_complete res' = 0.5%float /\
  points (joint_trajectory res')
  = [ {| positions := [0.25%float] |}; {| positions := [0.5%float] |} ].
Proof.
  destruct (C2_first_invalid_state_stops_extraction (E := Demo.blocked)
              Demo.empty_setup Demo.blocked_path
              (Demo.blocked_request 1%float [0.25%float])
              (reset_response Demo.stale_response) Demo.blocked_planner
              [Demo.state 0 0.25; Demo.state 0.25 0.5]%float
              (Demo.state 0.5 1.5)%float [Demo.state 1 0.75]%float)
    as (Hvalid & Hpercent & Hpoints & _).
  - simpl. lia.
  - reflexivity.
  - repeat constructor.
  - reflexivity.
  - exact (conj Hvalid (conj Hpercent Hpoints)).
Defined.

(** C5, as stated, fails: with a requested angle that is NaN every state
    of the path is valid and the response is marked valid, while the
    absolute difference, NaN, is not at most 0.01. *)
Lemma C5_counterexample :
  let req := Demo.solving_request PrimFloat.nan [0.25%float] in
  let res' :=
    fst (populateResponse (E := Demo.solving) Demo.empty_setup Demo.full_path
           req (reset_response Demo.stale_response) Demo.solving_planner) in
  let err :=
    fabs (theta req - at_index (screw_state (back Demo.full_path)) 0)%float in
  forallb Demo.always Demo.full_path = true /\
  trajectory_is_valid res' = true /\
  (err <=? 0.01)%float = false.
Proof. vm_compute. repeat split. Qed.

(** C5 (amended) on a valid path that ends at the requested angle: the
    difference is 0, a number, and the response is marked valid. *)
Lemma C5_witness :
  let req := Demo.solving_request 1%float [0.25%float] in
  let res' :=
    fst (populateResponse (E := Demo.solving) Demo.empty_setup Demo.full_path
           req (reset_response Demo.stale_response) Demo.solving_planner) in
  let err :=
    fabs (theta req - at_index (screw_state (back Demo.full_path)) 0)%float in
  PrimFloat.is_nan err = false /\
  trajectory_is_valid res' = true /\
  percentage_complete res' = 1%float /\
  path_length res' = 3%float.
Proof.
  destruct (C5_valid_path_is_checked_against_goal (E := Demo.solving)
              Demo.empty_setup Demo.full_path
              (Demo.solving_request 1%float [0.25%float])
              (reset_response Demo.stale_response) Demo.solving_planner)
    as (Hvalid & Hpercent & Hlength & _).
  - simpl. lia.
  - discriminate.
  - repeat constructor.
  - exact (conj eq_refl
             (conj (proj2 (Hvalid eq_refl) eq_refl) (conj Hpercent Hlength))).
Defined.

(** C3 on a planner that reports no solution. *)
Lemma C3_witness :
  plan (Demo.unsolved_request 1%float [0.25%float]) Demo.stale_response
    Demo.unsolved_planner
  = (PLANNING_FAIL, reset_response Demo.stale_response).
Proof.
  eapply proj1.
  eapply (C3_planner_failure_leaves_reset_response (E := Demo.unsolved));
    [vm_compute; reflexivity | vm_compute; reflexivity
    | vm_compute; reflexivity].
Defined.

(** C10 on a solved path of one state. *)
Lemma C10_witness :
  plan (Demo.single_state_request 1%float [0.25%float]) Demo.stale_response
    Demo.single_state_planner
  = (SUCCESS, reset_response Demo.stale_response).
Proof.
  edestruct (C10_success_with_short_path_leaves_reset_response
               (E := Demo.single_state)
               (Demo.single_state_request 1%float [0.25%float])
               Demo.stale_response Demo.single_state_planner)
    as (_ & Hshort);
    [vm_compute; reflexivity | vm_compute; reflexivity
    | vm_compute; reflexivity |].
  apply Hshort. simpl. lia.
Defined.

(** C6 with the quota of [plan], ten goals: the first goal is the IK
    solution found from the given start state, the next ones come from the
    random seeds, and the seed that repeats the first goal is not kept. *)
Lemma C6_witness :
  let req := Demo.solving_request 1%float [0.25%float] in
  SizeT.in_range 10 /\
  List.length (start_joint_state req)
  = getVariableCount (joint_model_group_ Demo.solving_planner) /\
  fst (findGoalStates req 10 [] [] Demo.solving_planner)
  = (true, [[0.25]],
     [[0.25]; [0.5]; [0.75]; [1]; [1.25]; [1.5]; [1.75]; [2]; [2.25]; [2.5]])%float.
Proof.
  assert (Hrange : SizeT.in_range 10) by (unfold SizeT.in_range, SizeT.modulus; lia).
  assert (Hsize :
    List.length (start_joint_state (Demo.solving_request 1%float [0.25%float]))
    = getVariableCount (joint_model_group_ Demo.solving_planner)) by reflexivity.
  split; [exact Hrange |]. split; [exact Hsize |].
  destruct (C6_start_given_goal_generation
              (Demo.solving_request 1%float [0.25%float]) 10 [] []
              Demo.solving_planner Hrange Hsize)
    as (Hresult & _).
  rewrite Hresult. vm_compute. reflexivity.
Defined.

(** C7, as stated, fails: with a start quota of 0 the function reports
    failure at its guard while neither set is empty (the vectors of the
    caller are left as they were). *)
Lemma C7_counterexample :
  let out := findStartGoalStates (Demo.solving_request 1%float []) 0 10
               [[0.1%float]] [[0.2%float]] Demo.solving_planner in
  fst (fst (fst out)) = false /\
  snd (fst (fst out)) <> [] /\
  snd (fst out) <> [].
Proof. vm_compute. repeat split; discriminate. Qed.

(** C7 (amended) with the quotas of [plan], five starts and ten goals. *)
Lemma C7_witness :
  let req := Demo.solving_request 1%float [] in
  SizeT.in_range 5 /\ SizeT.in_range 10 /\
  fst (findStartGoalStates req 5 10 [] [] Demo.solving_planner)
  = (true,
     [[0.25]; [0.5]; [0.75]; [1]; [1.25]],
     [[0.25]; [0.5]; [0.75]; [1]; [1.25]; [1.5]; [1.75]; [2]; [2.25]; [2.5]])%float.
Proof.
  assert (Hstart : SizeT.in_range 5) by (unfold SizeT.in_range, SizeT.modulus; lia).
  assert (Hgoal : SizeT.in_range 10) by (unfold SizeT.in_range, SizeT.modulus; lia).
  split; [exact Hstart |]. split; [exact Hgoal |].
  destruct (C7_start_and_goal_generation
              (Demo.solving_request 1%float []) 5 10 [] []
              Demo.solving_planner Hstart Hgoal)
    as (_ & Hresult & _).
  rewrite Hresult by lia. vm_compute. reflexivity.
Defined.

(** C4, on a group whose only active joint is a floating joint: the joint
    is skipped, the joint space has no dimension, state-space construction
    succeeds and [plan] goes on to the planner instead of returning
    INITIALIZATION_FAIL. *)
Theorem C4_floating_joint_is_skipped :
  let req := Demo.unsolved_request 1%float [] in
  let p := Demo.unsolved_floating_planner in
  map getType (getActiveJointModels (joint_model_group_ p)) = [FLOATING] /\
  setupStateSpace p req
  = Some {| screw_space := [(0%float, 1%float)]; joint_space := [];
            params := []; sampler_allocated := false; locked := false |} /\
  fst (plan req Demo.stale_response p) = PLANNING_FAIL.
Proof. vm_compute. repeat split. Qed.

(** C8, on a request of angle zero: every state of the solved path has
    progress 0, inside the bounds [0, theta] of the screw dimension; [plan]
    returns SUCCESS and [percentage_complete] is 0/0, which is NaN and so
    neither at least 0 nor at most 1. *)
Theorem C8_zero_angle_completion_is_nan :
  let req := Demo.zero_angle_request 0%float [0.25%float] in
  let out := plan req Demo.stale_response Demo.zero_angle_planner in
  forallb (fun st => (0 <=? at_index (screw_state st) 0)%float
                     && (at_index (screw_state st) 0 <=? theta req)%float)
    Demo.zero_path = true /\
  fst out = SUCCESS /\
  PrimFloat.is_nan (percentage_complete (snd out)) = true /\
  (0 <=? percentage_complete (snd out))%float = false /\
  (percentage_complete (snd out) <=? 1)%float = false.
Proof. vm_compute. repeat split. Qed.

(** X2 on a planar joint followed by a bounded revolute joint: four joint
    dimensions. *)
Lemma X2_witness :
  existsb unbounded_joint
    (getActiveJointModels (joint_model_group_ Demo.mobile_planner)) = false /\
  exists space,
    setupStateSpace Demo.mobile_planner (Demo.solving_request 1%float []) = Some space /\
    List.length (joint_space space) = 4%nat.
Proof.
  assert (Hbounded :
    existsb unbounded_joint
      (getActiveJointModels (joint_model_group_ Demo.mobile_planner)) = false)
    by reflexivity.
  split; [exact Hbounded |].
  destruct (X2_setupStateSpace_dimensions Demo.mobile_planner
              (Demo.solving_request 1%float []) Hbounded)
    as (space & Hsetup & _ & _ & Hlength & _).
  exists space. exact (conj Hsetup Hlength).
Defined.

(** X4 on a planner that reports no solution. *)
Lemma X4_witness :
  let out := plan (Demo.unsolved_request 1%float [0.25%float])
               Demo.stale_response Demo.unsolved_planner in
  fst out <> SUCCESS /\ snd out = reset_response Demo.stale_response.
Proof.
  assert (Hfail :
    fst (plan (Demo.unsolved_request 1%float [0.25%float])
           Demo.stale_response Demo.unsolved_planner) <> SUCCESS)
    by (vm_compute; discriminate).
  split; [exact Hfail |].
  exact (proj1 (X4_plan_failure_leaves_reset_response _ _ _ Hfail)).
Defined.

(** X6 on the one-joint arm. *)
Lemma X6_witness :
  exists space ss q,
    initialize (Demo.solving_request 1%float [0.25%float]) Demo.solving_planner
    = Some (space, ss, q) /\
    locked space = true /\
    In ("ee_frame_name"%string, "tool"%string) (params space) /\
    In ("move_group"%string, "arm"%string) (params space) /\
    passed_start_config_ q = true.
Proof.
  destruct (initialize (Demo.solving_request 1%float [0.25%float])
              Demo.solving_planner) as [[[space ss] q] |] eqn:Hinit;
    [| vm_compute in Hinit; discriminate].
  exists space, ss, q.
  destruct (X6_initialize_postcondition _ _ _ _ _ Hinit)
    as (_ & _ & _ & _ & Hframe & Hgroup & Hlocked & _ & _ & _ & Hpassed & _).
  exact (conj eq_refl (conj Hlocked (conj Hframe (conj Hgroup Hpassed)))).
Defined.

(** X8 on collaborators whose inverse kinematics always fails. *)
Lemma X8_witness :
  existsb unbounded_joint
    (getActiveJointModels (joint_model_group_ Demo.no_ik_planner)) = false /\
  (forall pose ks,
     fst (setFromIK (Collaborators := Demo.no_ik)
            (joint_model_group_ Demo.no_ik_planner) pose ks) = false) /\
  plan (Demo.no_ik_request 1%float [0.25%float]) Demo.stale_response
    Demo.no_ik_planner
  = (NO_IK_SOLUTION, reset_response Demo.stale_response).
Proof.
  assert (Hbounded :
    existsb unbounded_joint
      (getActiveJointModels (joint_model_group_ Demo.no_ik_planner)) = false)
    by reflexivity.
  assert (Hik : forall pose ks,
    fst (setFromIK (Collaborators := Demo.no_ik)
           (joint_model_group_ Demo.no_ik_planner) pose ks) = false)
    by (intros; reflexivity).
  exact (conj Hbounded
           (conj Hik
              (X8_plan_without_any_ik_solution
                 (Demo.no_ik_request 1%float [0.25%float])
                 Demo.stale_response Demo.no_ik_planner Hbounded Hik))).
Defined.

(** X9 with the quota of [plan], ten goals. *)
Lemma X9_witness :
  let req := Demo.solving_request 1%float [0.25%float] in
  1 <= 10 /\ 2 * 10 < SizeT.modulus /\
  fst (fst (fst (findGoalStates req 10 [] [] Demo.solving_planner))) = true.
Proof.
  assert (Hquota : 1 <= 10) by lia.
  assert (Hfits : 2 * 10 < SizeT.modulus) by (unfold SizeT.modulus; lia).
  split; [exact Hquota |]. split; [exact Hfits |].
  exact (proj1 (X9_first_ik_success_gives_a_goal
                  (Demo.solving_request 1%float [0.25%float]) 10 [] []
                  Demo.solving_planner Hquota Hfits eq_refl eq_refl)).
Defined.

(** X12 on a path whose third state is invalid. *)
Lemma X12_witness :
  (2 <= List.length Demo.blocked_path)%nat /\
  points (joint_trajectory
            (fst (populateResponse (E := Demo.blocked) Demo.empty_setup
                    Demo.blocked_path (Demo.blocked_request 1%float [0.25%float])
                    (reset_response Demo.stale_response) Demo.blocked_planner)))
  = [ {| positions := [0.25%float] |}; {| positions := [0.5%float] |} ].
Proof.
  assert (Hlen : (2 <= List.length Demo.blocked_path)%nat) by (simpl; lia).
  split; [exact Hlen |].
  destruct (X12_waypoints_are_the_valid_prefix (E := Demo.blocked)
              Demo.empty_setup Demo.blocked_path
              (Demo.blocked_request 1%float [0.25%float])
              (reset_response Demo.stale_response) Demo.blocked_planner Hlen)
    as (_ & Hpoints & _).
  exact Hpoints.
Defined.

(** X13 on a valid path that ends at the requested angle. *)
Lemma X13_witness :
  trajectory_is_valid (reset_response Demo.stale_response) = false /\
  trajectory_is_valid
    (fst (populateResponse (E := Demo.solving) Demo.empty_setup Demo.full_path
            (Demo.solving_request 1%float [0.25%float])
            (reset_response Demo.stale_response) Demo.solving_planner)) = true.
Proof.
  split; [reflexivity |].
  apply (X13_trajectory_is_valid_iff (E := Demo.solving) Demo.empty_setup
           Demo.full_path (Demo.solving_request 1%float [0.25%float])
           (reset_response Demo.stale_response) Demo.solving_planner eq_refl).
  split; [simpl; lia |]. split; reflexivity.
Defined.

(** X14 on a path whose third state is invalid. *)
Lemma X14_witness :
  (2 <= List.length Demo.blocked_path)%nat /\
  interpolate (Collaborators := Demo.blocked) Demo.blocked_path <> [] /\
  exists state,
    In state Demo.blocked_path /\
    percentage_complete
      (fst (populateResponse (E := Demo.blocked) Demo.empty_setup
              Demo.blocked_path (Demo.blocked_request 1%float [0.25%float])
              (reset_response Demo.stale_response) Demo.blocked_planner))
    = (at_index (screw_state state) 0 / 1)%float /\
    exists before after,
      Demo.blocked_path = before ++ state :: after /\
      Forall (fun st => Demo.joint_below_one st = true) before /\
      Demo.joint_below_one state = false.
Proof.
  assert (Hlen : (2 <= List.length Demo.blocked_path)%nat) by (simpl; lia).
  assert (Hnonempty :
    interpolate (Collaborators := Demo.blocked) Demo.blocked_path <> [])
    by discriminate.
  split; [exact Hlen |]. split; [exact Hnonempty |].
  destruct (X14_percentage_complete_comes_from_a_path_state (E := Demo.blocked)
              Demo.empty_setup Demo.blocked_path
              (Demo.blocked_request 1%float [0.25%float])
              (reset_response Demo.stale_response) Demo.blocked_planner
              Hlen Hnonempty)
    as (state & Hin & Hpercent & _ & Hfirst).
  exists state. exact (conj Hin (conj Hpercent (Hfirst eq_refl))).
Defined.

(** X15 on a path whose states hold one robot value, as the arm has one
    variable. *)
Lemma X15_witness :
  (2 <= List.length Demo.blocked_path)%nat /\
  points (joint_trajectory
            (fst (populateResponse (E := Demo.blocked) Demo.empty_setup
                    Demo.blocked_path (Demo.blocked_request 1%float [0.25%float])
                    (reset_response Demo.stale_response) Demo.blocked_planner)))
  = [ {| positions := [0.25%float] |}; {| positions := [0.5%float] |} ].
Proof.
  assert (Hlen : (2 <= List.length Demo.blocked_path)%nat) by (simpl; lia).
  split; [exact Hlen |].
  refine (X15_waypoints_are_the_joint_vectors (E := Demo.blocked)
            Demo.empty_setup Demo.blocked_path
            (Demo.blocked_request 1%float [0.25%float])
            (reset_response Demo.stale_response) Demo.blocked_planner Hlen _).
  repeat constructor.
Defined.

(** X16 on a request that is planned to the end. *)
Lemma X16_witness :
  let out := plan (Demo.solving_request 1%float [0.25%float])
               Demo.stale_response Demo.solving_planner in
  trajectory_is_valid (snd out) = true /\
  fst out = SUCCESS /\
  joint_names (joint_trajectory (snd out)) = ["shoulder"%string].
Proof.
  assert (Hvalid :
    trajectory_is_valid
      (snd (plan (Demo.solving_request 1%float [0.25%float])
              Demo.stale_response Demo.solving_planner)) = true)
    by (vm_compute; reflexivity).
  split; [exact Hvalid |].
  destruct (X16_valid_response_is_a_complete_success _ _ _ Hvalid)
    as (Hcode & Hnames & _).
  exact (conj Hcode Hnames).
Defined.
